(** * Clientes x Frentes: the data pipeline of [app.py]

    A shallow embedding of the dashboard script: the loaders and the way
    their names are bound at module level, [validate_df], [ensure_metrics],
    [client_table], the range and list filter, and the script run over
    the Streamlit session state. *)

From stdpp Require Import gmap strings list sorting pretty.
From Stdlib Require Import ZArith.

Local Open Scope string_scope.
Local Open Scope Z_scope.

(** ** Exceptions and results *)

(** The exceptions the modelled code can raise. *)
Inductive exn : Type :=
  | NameError (name : string)
  | ValueError (msg : string)
  | FileNotFoundError (path : string)
  | AttributeError (msg : string)
  | TypeError (msg : string)
  | IntCastingNaNError
  | BadZipFile
  | StreamlitAPIException.

(** A call either returns a value or raises. *)
Inductive result (A : Type) : Type :=
  | Ok (a : A)
  | Raise (e : exn).
Arguments Ok {A} a.
Arguments Raise {A} e.

#[global] Instance result_ret : MRet result := λ A a, Ok a.
#[global] Instance result_bind : MBind result := λ A B k r,
  match r with
  | Ok a => k a
  | Raise e => Raise e
  end.

(** ** Tables *)

(** A numeric cell: an integer reading, or [None] for a missing one (NaN).
    The metric columns are taken to be numeric columns of whole numbers:
    a sheet with text among its product totals, on which the [max] of line
    47 may raise, is outside this model, and so is the rounding of
    readings beyond 2^53 in a column that pandas holds as [float64]. *)
Abbreviation cell := (option Z).

(** One row of the loaded sheet, restricted to the columns of
    [REQUIRED_COLS].  Text cells are [None] when missing; the product total
    is a numeric column.  Any other column of the sheet is carried along
    untouched and left out here; none is taken to bear one of the two
    labels [ensure_metrics] adds. *)
Record raw_row : Type := {
  empresa : option string;            (* "Empresa relacionada - Nomes" *)
  frente : option string;             (* "Frente de Negócio" *)
  produto_principal : option string;  (* "Produto Principal" *)
  N_produtos_total : cell             (* "N_produtos_total" *)
}.

(** A table: its column labels, and its rows read through the required
    columns.  It stands for a frame as [pd.read_excel] hands it over and,
    in a workbook, for a sheet as the file holds it. *)
Record DataFrame : Type := {
  columns : list string;
  rows : list raw_row
}.

Definition REQUIRED_COLS : list string :=
  [ "Empresa relacionada - Nomes";
    "Frente de Negócio";
    "Produto Principal";
    "N_produtos_total" ].

(** ** validate_df *)

(** [repr] of a [str] with no quote, backslash or unprintable character,
    which is the case of every member of [REQUIRED_COLS]. *)
Definition repr_str (s : string) : string := "'" ++ s ++ "'".

Fixpoint join (sep : string) (l : list string) : string :=
  match l with
  | [] => ""
  | [s] => s
  | s :: l' => s ++ sep ++ join sep l'
  end.

(** [repr] of a list of such strings. *)
Definition repr_list (l : list string) : string :=
  "[" ++ join ", " (repr_str <$> l) ++ "]".

(** [[c for c in REQUIRED_COLS if c not in df.columns]] *)
Definition missing_cols (df : DataFrame) : list string :=
  filter (λ c, c ∉ columns df) REQUIRED_COLS.

Definition validate_df (df : DataFrame) : result unit :=
  let missing := missing_cols df in
  match missing with
  | [] => Ok tt
  | _ :: _ => Raise (ValueError ("Colunas obrigatórias ausentes: " ++ repr_list missing))
  end.


(** ** Reading workbooks *)

(** A workbook maps sheet names to sheets, a sheet being the labels of its
    header and its rows with the cells as the file holds them; the file
    system maps paths to workbooks. *)
Abbreviation workbook := (gmap string DataFrame).
Abbreviation filesystem := (gmap string workbook).

(** The texts [pd.read_excel] reads as missing when it is called, as on
    lines 22 and 25, with its default NA handling (the list documented
    for pandas 2). *)
Definition na_values : list string :=
  [ ""; "#N/A"; "#N/A N/A"; "#NA"; "-1.#IND"; "-1.#QNAN"; "-NaN"; "-nan";
    "1.#IND"; "1.#QNAN"; "<NA>"; "N/A"; "NA"; "NULL"; "NaN"; "None";
    "n/a"; "nan"; "null" ].

(** A text cell as the frame gets it. *)
Definition na_text (c : option string) : option string :=
  s ← c; if decide (s ∈ na_values) then None else Some s.

Definition na_row (r : raw_row) : raw_row :=
  {| empresa := na_text (empresa r);
     frente := na_text (frente r);
     produto_principal := na_text (produto_principal r);
     N_produtos_total := N_produtos_total r |}.

(** The frame read from one sheet of an open workbook. *)
Definition read_sheet (wb : workbook) (sheet_name : string) : result DataFrame :=
  match wb !! sheet_name with
  | Some sheet => Ok {| columns := columns sheet; rows := na_row <$> rows sheet |}
  | None => Raise (ValueError ("Worksheet named '" ++ sheet_name ++ "' not found"))
  end.

(** [pd.read_excel(path, sheet_name=...)] *)
Definition read_excel (fs : filesystem) (path sheet_name : string) : result DataFrame :=
  match fs !! path with
  | Some wb => read_sheet wb sheet_name
  | None => Raise (FileNotFoundError path)
  end.

(** ** Module-level names

    The script binds its names in the module's global dictionary, one
    top-level statement after the other; a later [def] of a name rebinds
    it.  Names assigned inside a function body are local to that call. *)

Inductive funcdef : Type :=
  | def_load_default_df_17   (* the [def load_default_df] of line 17 *)
  | def_load_default_df_21   (* the [def load_default_df] of line 21 *)
  | def_load_uploaded_df
  | def_validate_df
  | def_ensure_metrics
  | def_client_table
  | def_bar_with_labels.

Inductive pyobj : Type :=
  | PyNone
  | PyStr (s : string)
  | PyList (l : list string)
  | PyModule (name : string)
  | PyFunction (f : funcdef)
  | PyFrame (df : DataFrame).

(** The top-level bindings of lines 1 to 93, in execution order. *)
Definition module_bindings : list (string * pyobj) :=
  [ ("pd", PyModule "pandas");
    ("st", PyModule "streamlit");
    ("px", PyModule "plotly.express");
    ("REQUIRED_COLS", PyList REQUIRED_COLS);
    ("load_default_df", PyFunction def_load_default_df_17);
    ("load_default_df", PyFunction def_load_default_df_21);
    ("load_uploaded_df", PyFunction def_load_uploaded_df);
    ("validate_df", PyFunction def_validate_df);
    ("ensure_metrics", PyFunction def_ensure_metrics);
    ("client_table", PyFunction def_client_table);
    ("bar_with_labels", PyFunction def_bar_with_labels) ].

Definition exec_bindings (g : gmap string pyobj) (bs : list (string * pyobj)) :
    gmap string pyobj :=
  foldl (λ g kv, <[kv.1 := kv.2]> g) g bs.

Definition module_globals : gmap string pyobj := exec_bindings ∅ module_bindings.

(** Reading a name that is not a local of the running function: the global
    dictionary, else [NameError] (none of the names read is a builtin). *)
Definition load_name (g : gmap string pyobj) (name : string) : result pyobj :=
  match g !! name with
  | Some v => Ok v
  | None => Raise (NameError name)
  end.

Definition as_str (o : pyobj) : result string :=
  match o with
  | PyStr s => Ok s
  | _ => Raise (TypeError "expected str")
  end.

(** Line 17: the body assigns two locals and falls off its end. *)
Definition load_default_df_17 : result pyobj :=
  let DEFAULT_FILE := "Clientes_25-26_frentes_padronizado.xlsx" in
  let DEFAULT_SHEET := "Brasil_Latam" in
  Ok PyNone.

(** Line 21: [return pd.read_excel(DEFAULT_FILE, sheet_name=DEFAULT_SHEET)];
    neither name is assigned in this body, so both are read as globals. *)
Definition load_default_df_21 (g : gmap string pyobj) (fs : filesystem) :
    result pyobj :=
  _ ← load_name g "pd";
  file ← load_name g "DEFAULT_FILE";
  sheet ← load_name g "DEFAULT_SHEET";
  path ← as_str file;
  sheet_name ← as_str sheet;
  df ← read_excel fs path sheet_name;
  Ok (PyFrame df).

(** The call [load_default_df()]: whatever the name is bound to when the
    call runs. *)
Definition load_default_df (g : gmap string pyobj) (fs : filesystem) : result pyobj :=
  f ← load_name g "load_default_df";
  match f with
  | PyFunction def_load_default_df_17 => load_default_df_17
  | PyFunction def_load_default_df_21 => load_default_df_21 g fs
  | _ => Raise (TypeError "object is not callable")
  end.

(** [pd.read_excel(uploaded_file, sheet_name="Brasil_Latam")].  The upload
    is given by what opening it gives: the workbook its bytes hold, or the
    exception raised on bytes that hold none ([BadZipFile] for a damaged
    archive, [ValueError] for an unknown format). *)
Definition load_uploaded_df (uploaded_file : result workbook) : result pyobj :=
  wb ← uploaded_file;
  df ← read_sheet wb "Brasil_Latam";
  Ok (PyFrame df).

(** The argument of [validate_df] and [ensure_metrics] has to be a frame. *)
Definition as_frame (o : pyobj) : result DataFrame :=
  match o with
  | PyFrame df => Ok df
  | _ => Raise (AttributeError "object has no attribute 'columns'")
  end.

(** ** Grouping, aggregating and joining *)

(** Python's order on [str] is by code point; on UTF-8 bytes that is the
    bytewise order [String.le]. *)

(** The group keys of [df.groupby(key)]: the distinct non-missing keys,
    sorted (rows whose key is missing belong to no group). *)
Definition group_keys {A} (key : A → option string) (df : list A) : list string :=
  merge_sort String.le (remove_dups (omap key df)).

Definition group_rows {A} (key : A → option string) (k : string) (df : list A) : list A :=
  filter (λ r, key r = Some k) df.

(** [df.groupby(key)[col].agg().reset_index()]: one (key, value) row per
    group. *)
Definition groupby_agg {A C V} (key : A → option string) (col : A → C)
    (agg : list C → V) (df : list A) : list (string * V) :=
  (λ k, (k, agg (col <$> group_rows key k df))) <$> group_keys key df.

(** [Series.nunique()]: the number of distinct values, missing ones left
    out. *)
Definition nunique (s : list (option string)) : Z :=
  Z.of_nat (length (remove_dups (omap id s))).

(** [max] of two cells, skipping a missing one. *)
Definition cell_max (a b : cell) : cell :=
  match a, b with
  | Some x, Some y => Some (Z.max x y)
  | Some x, None => Some x
  | None, b => b
  end.

(** [Series.max()] of a group: the largest reading, missing when every
    reading is missing. *)
Definition series_max (s : list cell) : cell := foldr cell_max None s.

(** [left.merge(right, on=key, how="left")] for a [right] of (key, value)
    rows: every left row, in order, once per matching right row, and once
    with a missing value when nothing matches. *)
Definition merge_left {A} (key : A → option string) (left : list A)
    (right : list (string * cell)) : list (A * cell) :=
  r ← left;
  match filter (λ kv, key r = Some kv.1) right with
  | [] => [(r, None)]
  | ms => (λ kv, (r, kv.2)) <$> ms
  end.

(** A row of the frame [ensure_metrics] returns. *)
Record derived_row : Type := {
  raw : raw_row;
  N_frentes_calc : cell;
  N_produtos_total_calc : cell
}.

Definition cliente (r : derived_row) : option string := empresa (raw r).

(** Lines 32 to 54: the two per-client aggregates, joined back onto the
    rows, for a frame whose product totals are numeric. *)
Definition ensure_metrics (df : list raw_row) : list derived_row :=
  let fr := groupby_agg empresa frente (λ s, Some (nunique s)) df in
  let pr := groupby_agg empresa N_produtos_total series_max df in
  let out := merge_left (λ r, empresa r.1) (merge_left empresa df fr) pr in
  (λ r, {| raw := r.1.1; N_frentes_calc := r.1.2; N_produtos_total_calc := r.2 |}) <$> out.

(** ** client_table *)

(** The aggregated frame before the casts: metrics may be missing. *)
Record agg_row : Type := {
  agg_empresa : string;
  agg_frentes : cell;
  agg_produtos : cell
}.

(** A row of the client table. *)
Record client_row : Type := {
  Empresa : string;
  N_frentes : Z;
  N_produtos : Z
}.

(** [pd.to_numeric(s, errors="coerce")] on a numeric column, which is what
    the two metric columns are taken to be here: readings are kept, missing
    ones stay missing. *)
Definition to_numeric (c : cell) : cell := c.

(** [out.dropna(subset=["N_frentes", "N_produtos"])] *)
Definition dropna (out : list agg_row) : list agg_row :=
  filter (λ r, is_Some (agg_frentes r) ∧ is_Some (agg_produtos r)) out.

(** An integer as [int64] holds it: reduced modulo 2^64 into
    [-2^63, 2^63). *)
Definition wrap64 (z : Z) : Z := (z + 2 ^ 63) mod 2 ^ 64 - 2 ^ 63.

(** [astype(int)] of one cell: the reading as an [int64]; a missing value
    cannot be cast. *)
Definition astype_int (c : cell) : result Z :=
  match c with
  | Some z => Ok (wrap64 z)
  | None => Raise IntCastingNaNError
  end.

Fixpoint mapM {A B} (f : A → result B) (l : list A) : result (list B) :=
  match l with
  | [] => Ok []
  | a :: l' => b ← f a; bs ← mapM f l'; Ok (b :: bs)
  end.

(** Lines 56 to 74: group, take the two maxima, coerce, drop the rows with
    a missing metric, cast. *)
Definition client_table (df : list derived_row) : result (list client_row) :=
  let out :=
    (λ k, let g := group_rows cliente k df in
          {| agg_empresa := k;
             agg_frentes := series_max (N_frentes_calc <$> g);
             agg_produtos := series_max (N_produtos_total_calc <$> g) |})
      <$> group_keys cliente df in
  let out := (λ r, {| agg_empresa := agg_empresa r;
                      agg_frentes := to_numeric (agg_frentes r);
                      agg_produtos := agg_produtos r |}) <$> out in
  let out := (λ r, {| agg_empresa := agg_empresa r;
                      agg_frentes := agg_frentes r;
                      agg_produtos := to_numeric (agg_produtos r) |}) <$> out in
  let out := dropna out in
  mapM (λ r, nf ← astype_int (agg_frentes r);
             np ← astype_int (agg_produtos r);
             Ok {| Empresa := agg_empresa r; N_frentes := nf; N_produtos := np |})
       out.

(** ** The range and list filter *)

Inductive view_mode : Type := Frentes | Produtos.

(** [Series.min()] and [Series.max()] followed by [int(...)]: of an empty
    column they are NaN, which [int] refuses. *)
Definition series_min_int (s : list Z) : result Z :=
  match s with
  | [] => Raise (ValueError "cannot convert float NaN to integer")
  | x :: s' => Ok (foldr Z.min x s')
  end.

Definition series_max_int (s : list Z) : result Z :=
  match s with
  | [] => Raise (ValueError "cannot convert float NaN to integer")
  | x :: s' => Ok (foldr Z.max x s')
  end.

(** [Series.between(lo, hi)], inclusive on both sides. *)
Definition between (lo hi v : Z) : Prop := lo ≤ v ∧ v ≤ hi.

#[global] Instance between_dec lo hi v : Decision (between lo hi v).
Proof. unfold between. apply _. Defined.

(** Lines 187 to 194. *)
Definition range_filter (mode : view_mode) (metric_range : Z * Z)
    (clients : list client_row) : list client_row :=
  match mode with
  | Frentes => filter (λ r, between metric_range.1 metric_range.2 (N_frentes r)) clients
  | Produtos => filter (λ r, between metric_range.1 metric_range.2 (N_produtos r)) clients
  end.

Definition value_col (mode : view_mode) : string :=
  match mode with
  | Frentes => "N_frentes"
  | Produtos => "N_produtos"
  end.

Definition subtitle (mode : view_mode) : string :=
  match mode with
  | Frentes => "Tamanho do bloco = Nº de frentes"
  | Produtos => "Tamanho do bloco = Nº de produtos"
  end.

(** Lines 196 and 197: an empty list is falsy, and leaves the frame as
    it is. *)
Definition list_filter (client_list : list string)
    (base_filtered : list client_row) : list client_row :=
  match client_list with
  | [] => base_filtered
  | _ :: _ => filter (λ r, Empresa r ∈ client_list) base_filtered
  end.

Definition apply_filters (mode : view_mode) (metric_range : Z * Z)
    (client_list : list string) (clients : list client_row) : list client_row :=
  list_filter client_list (range_filter mode metric_range clients).

(** The column the selected view reads. *)
Definition metric (mode : view_mode) (r : client_row) : Z :=
  match mode with
  | Frentes => N_frentes r
  | Produtos => N_produtos r
  end.

(** ** The page and the session *)

Inductive figure : Type :=
  | Treemap (clients_view : list client_row) (values : string)
  | Bar (df_counts : list (Z * Z)) (xcol ycol xlabel : string).

(** What a run puts on the page, one constructor per Streamlit call. *)
Inductive element : Type :=
  | st_title (body : string)
  | st_caption (body : string)
  | st_header (body : string)
  | st_subheader (body : string)
  | st_markdown (body : string)
  | st_divider
  | st_success (body : string)
  | st_warning (body : string)
  | st_error (body : string)
  | st_metric (label value : string) (delta : option (Z * Z))
  | st_plotly_chart (fig : figure)
  | st_dataframe (data : list derived_row).

(** [st.session_state]: a key is in it when its field is [Some]. *)
Record session_state : Type := {
  df_cached : option (list derived_row);
  client_list : option (list string)
}.

Record run_state : Type := {
  session : session_state;
  page : list element
}.

(** How a run of the script ends: at its last line, at [st.stop()], or
    with an uncaught exception. *)
Inductive outcome (A : Type) : Type :=
  | Done (a : A)
  | Stopped
  | Raised (e : exn).
Arguments Done {A} a.
Arguments Stopped {A}.
Arguments Raised {A} e.

(** A piece of the script: it reads and writes the run state, and what it
    wrote stays written when it stops or raises. *)
Definition script (A : Type) : Type := run_state → outcome A * run_state.

#[global] Instance script_ret : MRet script := λ A a s, (Done a, s).
#[global] Instance script_bind : MBind script := λ A B k m s,
  match m s with
  | (Done a, s') => k a s'
  | (Stopped, s') => (Stopped, s')
  | (Raised e, s') => (Raised e, s')
  end.

Definition lift {A} (r : result A) : script A := λ s,
  match r with
  | Ok a => (Done a, s)
  | Raise e => (Raised e, s)
  end.

Definition emit (e : element) : script unit := λ s,
  (Done tt, {| session := session s; page := page s ++ [e] |}).

Definition st_stop {A} : script A := λ s, (Stopped, s).

Definition get_session : script session_state := λ s, (Done (session s), s).

Definition set_df_cached (df : list derived_row) : script unit := λ s,
  (Done tt, {| session := {| df_cached := Some df; client_list := client_list (session s) |};
               page := page s |}).

Definition set_client_list (l : list string) : script unit := λ s,
  (Done tt, {| session := {| df_cached := df_cached (session s); client_list := Some l |};
               page := page s |}).

(** Reading a key of the session state that was never set. *)
Definition get_df_cached : script (list derived_row) := λ s,
  match df_cached (session s) with
  | Some df => (Done df, s)
  | None => (Raised (AttributeError "st.session_state has no attribute 'df_cached'"), s)
  end.

Definition get_client_list : script (list string) := λ s,
  match client_list (session s) with
  | Some l => (Done l, s)
  | None => (Raised (AttributeError "st.session_state has no attribute 'client_list'"), s)
  end.

(** What the widgets hold when the run starts. *)
Record ui_inputs : Type := {
  uploaded : option (result workbook);  (* the uploader: [None] without a file *)
  btn_default : bool;                   (* "Usar base padrão" was clicked *)
  btn_upload : bool;                    (* "Usar base enviada" was clicked *)
  mode : view_mode;
  range_frentes : option (Z * Z);       (* a slider: [None] while untouched *)
  range_produtos : option (Z * Z);
  top_n : option nat
}.

(** [st.slider(min_value=, max_value=, value=(min_value, max_value))]: the
    call is refused, with a [StreamlitAPIException], unless [min_value] is
    below [max_value]; it returns the pair the slider holds, and its
    [value] when it holds none or one that is not within the bounds (a
    slider whose bounds have changed starts afresh). *)
Definition st_range_slider (min_value max_value : Z) (held : option (Z * Z)) :
    result (Z * Z) :=
  if decide (min_value < max_value) then
    Ok match held with
       | Some v =>
           if decide (min_value ≤ v.1 ∧ v.1 ≤ v.2 ∧ v.2 ≤ max_value) then v
           else (min_value, max_value)
       | None => (min_value, max_value)
       end
  else Raise StreamlitAPIException.

(** [st.slider(min_value=, max_value=, value=)] with one number, under
    the same condition. *)
Definition st_slider (min_value max_value value : nat) (held : option nat) : result nat :=
  if decide (min_value < max_value)%nat then
    Ok match held with
       | Some v => if decide (min_value ≤ v ≤ max_value)%nat then v else value
       | None => value
       end
  else Raise StreamlitAPIException.

(** [st.multiselect(..., options=, key="client_list")]: the selection is
    the list the session holds under the key, without the names that are
    no option, and the session holds the selection afterwards. *)
Definition st_multiselect (options : list string) : script (list string) := λ s,
  let selection := filter (λ x, x ∈ options) (default [] (client_list (session s))) in
  (Done selection,
   {| session := {| df_cached := df_cached (session s); client_list := Some selection |};
      page := page s |}).

(** ** The script *)

(** Lines 98 to 104.  [validate_df] reads [df.columns], which only a frame
    has. *)
Definition init_session (g : gmap string pyobj) (fs : filesystem) : script unit :=
  s ← get_session;
  match df_cached s with
  | None =>
      df0 ← lift (load_default_df g fs);
      df ← lift (as_frame df0);
      lift (validate_df df);;
      set_df_cached (ensure_metrics (rows df))
  | Some _ => mret tt
  end;;
  s ← get_session;
  match client_list s with
  | None => set_client_list []
  | Some _ => mret tt
  end.

(** Lines 120 to 125: the body under "Usar base padrão". *)
Definition use_default_base (g : gmap string pyobj) (fs : filesystem) : script unit :=
  df0 ← lift (load_default_df g fs);
  df ← lift (as_frame df0);
  lift (validate_df df);;
  set_df_cached (ensure_metrics (rows df));;
  set_client_list [];;
  emit (st_success "Base padrão carregada.").

(** Lines 127 to 132: the body under "Usar base enviada". *)
Definition use_uploaded_base (uploaded_file : result workbook) : script unit :=
  dfu ← lift (load_uploaded_df uploaded_file);
  df ← lift (as_frame dfu);
  lift (validate_df df);;
  set_df_cached (ensure_metrics (rows df));;
  set_client_list [];;
  emit (st_success "Base enviada carregada.").

(** Lines 115 to 135. *)
Definition sidebar_base (g : gmap string pyobj) (fs : filesystem)
    (inp : ui_inputs) : script unit :=
  emit (st_header "Base de dados");;
  (if btn_default inp then use_default_base g fs else mret tt);;
  match uploaded inp with
  | Some uploaded_file =>
      if btn_upload inp then use_uploaded_base uploaded_file else mret tt
  | None => mret tt
  end;;
  emit st_divider.

(** [s.value_counts().sort_index().reset_index()]: each value with the
    number of rows that carry it, by increasing value. *)
Definition value_counts (s : list Z) : list (Z * Z) :=
  (λ v, (v, Z.of_nat (length (filter (λ x, x = v) s)))) <$> merge_sort Z.le (remove_dups s).

Definition bar_with_labels (df_counts : list (Z * Z)) (xcol ycol xlabel : string) : figure :=
  Bar df_counts xcol ycol xlabel.

Definition metric_ge (mode : view_mode) (a b : client_row) : Prop :=
  metric mode b ≤ metric mode a.

#[global] Instance metric_ge_dec mode a b : Decision (metric_ge mode a b).
Proof. unfold metric_ge. apply _. Defined.

(** [sort_values(value_col, ascending=False)].  Rows with equal values
    come here in the order the merge sort leaves them; pandas promises no
    order among them. *)
Definition sort_desc (mode : view_mode) (l : list client_row) : list client_row :=
  merge_sort (metric_ge mode) l.

(** [df.merge(base_filtered[["Empresa relacionada - Nomes"]], how="inner")]:
    every row of [df], in order, once per client row of the same name. *)
Definition merge_inner (df : list derived_row) (base_filtered : list client_row) :
    list derived_row :=
  r ← df;
  (λ _, r) <$> filter (λ c, cliente r = Some (Empresa c)) base_filtered.

(** Lines 206 to 281: everything shown below the filters.  The ratio under
    a KPI is carried as its two operands. *)
Definition render (mode : view_mode) (top_n : nat) (df : list derived_row)
    (base_filtered : list client_row) : script unit :=
  emit (st_subheader "Visual principal");;
  emit (st_caption (subtitle mode));;
  let clients_view := take top_n (sort_desc mode base_filtered) in
  emit (st_plotly_chart (Treemap clients_view (value_col mode)));;
  emit st_divider;;
  emit (st_subheader "KPIs");;
  let total_clients := Z.of_nat (length base_filtered) in
  let clients_2p_frentes := Z.of_nat (length (filter (λ r, 2 ≤ N_frentes r) base_filtered)) in
  let clients_2p_produtos := Z.of_nat (length (filter (λ r, 2 ≤ N_produtos r) base_filtered)) in
  max_fr ← lift (if decide (total_clients = 0) then Ok 0
                  else series_max_int (N_frentes <$> base_filtered));
  max_pr ← lift (if decide (total_clients = 0) then Ok 0
                  else series_max_int (N_produtos <$> base_filtered));
  emit (st_metric "Clientes (no recorte)" (pretty total_clients) None);;
  emit (st_metric "Clientes com ≥2 frentes" (pretty clients_2p_frentes)
          (if decide (total_clients = 0) then None
           else Some (clients_2p_frentes, total_clients)));;
  emit (st_metric "Clientes com ≥2 produtos" (pretty clients_2p_produtos)
          (if decide (total_clients = 0) then None
           else Some (clients_2p_produtos, total_clients)));;
  emit (st_metric "Máximos no recorte"
          (pretty max_fr ++ " frentes | " ++ pretty max_pr ++ " produtos") None);;
  emit st_divider;;
  emit (st_subheader "Indicadores");;
  emit (st_markdown "**Distribuição: nº de frentes por cliente**");;
  let fr_dist := value_counts (N_frentes <$> base_filtered) in
  emit (st_plotly_chart (bar_with_labels fr_dist "N_frentes" "Clientes" "Nº de frentes"));;
  emit (st_markdown "**Distribuição: nº de produtos por cliente**");;
  let pr_dist := value_counts (N_produtos <$> base_filtered) in
  emit (st_plotly_chart (bar_with_labels pr_dist "N_produtos" "Clientes" "Nº de produtos"));;
  emit st_divider;;
  emit (st_subheader "Tabela (réplica da base)");;
  let df_filtered := merge_inner df base_filtered in
  emit (st_dataframe df_filtered).

(** Lines 140 to 281: from the cached frame to the page. *)
Definition dashboard (inp : ui_inputs) : script unit :=
  df ← get_df_cached;
  clients ← lift (client_table df);
  match clients with
  | [] => emit (st_error "Não há clientes válidos para analisar (verifique a base).");;
          st_stop
  | _ :: _ => mret tt
  end;;
  min_fr ← lift (series_min_int (N_frentes <$> clients));
  max_fr ← lift (series_max_int (N_frentes <$> clients));
  min_pr ← lift (series_min_int (N_produtos <$> clients));
  max_pr ← lift (series_max_int (N_produtos <$> clients));
  emit (st_subheader "Filtros (faixa)");;
  metric_range ← lift match mode inp with
                      | Frentes => st_range_slider min_fr max_fr (range_frentes inp)
                      | Produtos => st_range_slider min_pr max_pr (range_produtos inp)
                      end;
  top_n ← lift (st_slider 10 (Nat.min 200 (length clients))
                  (Nat.min 60 (length clients)) (top_n inp));
  emit st_divider;;
  emit (st_subheader "Filtro por lista de clientes (global)");;
  let all_client_opts := merge_sort String.le (Empresa <$> clients) in
  st_multiselect all_client_opts;;
  client_list ← get_client_list;
  let base_filtered := apply_filters (mode inp) metric_range client_list clients in
  match base_filtered with
  | [] => emit (st_warning "Com esses filtros, não há clientes para exibir. Ajuste a faixa ou a lista.");;
          st_stop
  | _ :: _ => mret tt
  end;;
  render (mode inp) top_n df base_filtered.

(** One run of the whole script. *)
Definition app (g : gmap string pyobj) (fs : filesystem) (inp : ui_inputs) : script unit :=
  init_session g fs;;
  emit (st_title "CT - Entregas - Clientes por frentes / produtos — Ciclo 25–26");;
  emit (st_caption "KPIs + indicadores + tabela. Use o filtro de lista para recortes por cliente.");;
  sidebar_base g fs inp;;
  dashboard inp.

(** The state of a process that has not run the script yet. *)
Definition fresh : run_state :=
  {| session := {| df_cached := None; client_list := None |}; page := [] |}.

(** The elements that show data: charts, KPIs and tables. *)
Definition is_presentation (e : element) : bool :=
  match e with
  | st_metric _ _ _ | st_plotly_chart _ | st_dataframe _ => true
  | _ => false
  end.

(** ** Notions the statements use *)

(** The distinct non-missing fronts seen on the rows of client [k]. *)
Definition distinct_fronts (df : list raw_row) (k : string) : gset string :=
  list_to_set (omap frente (group_rows empresa k df)).

(** What the range slider of the selected view holds. *)
Definition held_range (inp : ui_inputs) : option (Z * Z) :=
  match mode inp with
  | Frentes => range_frentes inp
  | Produtos => range_produtos inp
  end.

(** What the range slider of the selected view returns over [clients]. *)
Definition selected_range (inp : ui_inputs) (clients : list client_row) : result (Z * Z) :=
  lo ← series_min_int (metric (mode inp) <$> clients);
  hi ← series_max_int (metric (mode inp) <$> clients);
  st_range_slider lo hi (held_range inp).

(** What the "Top N" slider returns over [clients]. *)
Definition selected_top_n (inp : ui_inputs) (clients : list client_row) : result nat :=
  st_slider 10 (Nat.min 200 (length clients)) (Nat.min 60 (length clients)) (top_n inp).



(** A piece of the script that leaves the cached frame as it is and only
    adds to the page. *)
Definition keeps_base {A} (c : script A) : Prop :=
  ∀ s, df_cached (session (c s).2) = df_cached (session s)
       ∧ page s `prefix_of` page (c s).2.

(** What the two left joins of [ensure_metrics] put on a row whose client
    cell is [o]. *)
Definition fronts_of (df : list raw_row) (o : option string) : cell :=
  k ← o; Some (nunique (frente <$> group_rows empresa k df)).

Definition products_of (df : list raw_row) (o : option string) : cell :=
  k ← o; series_max (N_produtos_total <$> group_rows empresa k df).

(** The row [client_table] keeps for the group of key [k]: none when one
    of the two maxima is missing. *)
Definition client_row_of (df : list derived_row) (k : string) : option client_row :=
  nf ← series_max (N_frentes_calc <$> group_rows cliente k df);
  np ← series_max (N_produtos_total_calc <$> group_rows cliente k df);
  Some {| Empresa := k; N_frentes := wrap64 nf; N_produtos := wrap64 np |}.

(** ** Sample data *)

Definition row (c f : string) (n : cell) : raw_row :=
  {| empresa := Some c; frente := Some f; produto_principal := None;
     N_produtos_total := n |}.

(** The three-row base of the specification's scenario. *)
Definition sample_rows : list raw_row :=
  [ row "Acme" "Ops" (Some 5); row "Acme" "Sales" (Some 5); row "Beta" "Ops" (Some 3) ].

(** Rows of the derived frame of [sample_rows]. *)
Definition acme_ops : derived_row :=
  {| raw := row "Acme" "Ops" (Some 5); N_frentes_calc := Some 2;
     N_produtos_total_calc := Some 5 |}.

Definition acme_sales : derived_row :=
  {| raw := row "Acme" "Sales" (Some 5); N_frentes_calc := Some 2;
     N_produtos_total_calc := Some 5 |}.

Definition sample_clients : list client_row :=
  [ {| Empresa := "Acme"; N_frentes := 2; N_produtos := 5 |};
    {| Empresa := "Beta"; N_frentes := 1; N_produtos := 3 |} ].

Definition sample_frame : DataFrame :=
  {| columns := REQUIRED_COLS; rows := sample_rows |}.

(** A file system in which the default workbook is there, with its sheet. *)
Definition sample_fs : filesystem :=
  {[ "Clientes_25-26_frentes_padronizado.xlsx" := {[ "Brasil_Latam" := sample_frame ]} ]}.

(** A sheet without the front and product-total columns. *)
Definition short_frame : DataFrame :=
  {| columns := ["Empresa relacionada - Nomes"; "Produto Principal"]; rows := [] |}.

Definition short_upload : result workbook := Ok {[ "Brasil_Latam" := short_frame ]}.






Definition sample_state : run_state :=
  {| session := {| df_cached := Some (ensure_metrics sample_rows); client_list := Some [] |};
     page := [] |}.

Definition untouched : ui_inputs :=
  {| uploaded := None; btn_default := false; btn_upload := false; mode := Produtos;
     range_frentes := None; range_produtos := None; top_n := None |}.

(** A base of eleven clients with one front each: Kilo has five products,
    the others one. *)
Definition eleven_names : list string :=
  [ "Alfa"; "Bravo"; "Charlie"; "Delta"; "Echo"; "Foxtrot"; "Golf"; "Hotel";
    "India"; "Juliet"; "Kilo" ].

Definition eleven_rows : list raw_row :=
  (λ c, row c "Ops" (Some (if decide (c = "Kilo") then 5 else 1))) <$> eleven_names.

Definition eleven_clients : list client_row :=
  (λ c, {| Empresa := c; N_frentes := 1;
           N_produtos := if decide (c = "Kilo") then 5 else 1 |}) <$> eleven_names.

Definition eleven_state : run_state :=
  {| session := {| df_cached := Some (ensure_metrics eleven_rows); client_list := Some [] |};
     page := [] |}.

(** The product slider moved to a range no client falls in. *)
Definition narrowed : ui_inputs :=
  {| uploaded := None; btn_default := false; btn_upload := false; mode := Produtos;
     range_frentes := None; range_produtos := Some (2, 4); top_n := None |}.

(** A cached base of ten clients: the first ten of [eleven_rows]. *)
Definition ten_state : run_state :=
  {| session := {| df_cached := Some (ensure_metrics (take 10 eleven_rows));
                   client_list := Some [] |};
     page := [] |}.

(** ** Further sample data *)

(** A base with a row whose client cell is missing. *)
Definition orphan_rows : list raw_row :=
  [ row "Acme" "Ops" (Some 5);
    {| empresa := None; frente := Some "Ops"; produto_principal := None;
       N_produtos_total := Some 9 |} ].

Definition orphan : derived_row :=
  {| raw := {| empresa := None; frente := Some "Ops"; produto_principal := None;
               N_produtos_total := Some 9 |};
     N_frentes_calc := None; N_produtos_total_calc := None |}.

(** A cached base none of whose clients has a product reading. *)
Definition unread_state : run_state :=
  {| session := {| df_cached := Some (ensure_metrics [row "Gama" "Ops" None]);
                   client_list := Some [] |};
     page := [] |}.

(** An upload with the required sheet and columns. *)
Definition sample_upload : result workbook := Ok {[ "Brasil_Latam" := sample_frame ]}.

(** The frame of [sample_frame] with its columns in another order and one
    more column. *)
Definition wide_frame : DataFrame :=
  {| columns := ["Ano"; "N_produtos_total"; "Produto Principal";
                 "Frente de Negócio"; "Empresa relacionada - Nomes"];
     rows := sample_rows |}.

(** A run in which "Usar base padrão" was clicked. *)
Definition reset_click : ui_inputs :=
  {| uploaded := None; btn_default := true; btn_upload := false; mode := Frentes;
     range_frentes := None; range_produtos := None; top_n := None |}.

(** * Properties *)

(** ** validate_df *)

Section strings.
Implicit Types s t u : string.




End strings.



Lemma elem_of_missing_cols df c :
  c ∈ missing_cols df ↔ c ∈ REQUIRED_COLS ∧ c ∉ columns df.
Proof. unfold missing_cols. rewrite list_elem_of_filter. tauto. Qed.


(** ** Grouping and joining *)

Section grouping.
Context {A : Type} (key : A → option string).
Implicit Types (df : list A) (k : string).

Lemma elem_of_group_keys df k :
  k ∈ group_keys key df ↔ ∃ r, r ∈ df ∧ key r = Some k.
Proof.
  unfold group_keys.
  rewrite merge_sort_Permutation, elem_of_remove_dups, list_elem_of_omap.
  naive_solver.
Qed.

Lemma NoDup_group_keys df : NoDup (group_keys key df).
Proof.
  unfold group_keys. rewrite merge_sort_Permutation. apply NoDup_remove_dups.
Qed.

Lemma elem_of_group_rows df k r :
  r ∈ group_rows key k df ↔ r ∈ df ∧ key r = Some k.
Proof. unfold group_rows. rewrite list_elem_of_filter. tauto. Qed.

(** Filtering a duplicate-free list of keys by equality with one key. *)
Lemma filter_eq_NoDup (keys : list string) (o : option string) :
  NoDup keys →
  filter (λ k, o = Some k) keys
  = match o with
    | Some k => if decide (k ∈ keys) then [k] else []
    | None => []
    end.
Proof.
  induction 1 as [|x keys Hx Hnd IH]; [by destruct o |].
  rewrite filter_cons, IH. destruct o as [k|]; [|by case_decide].
  destruct (decide (k = x)) as [->|Hne].
  - rewrite (decide_True (P := Some x = Some x)) by done.
    rewrite (decide_False (P := x ∈ keys)) by done.
    by rewrite (decide_True (P := x ∈ x :: keys)) by apply list_elem_of_here.
  - rewrite (decide_False (P := Some k = Some x)) by congruence.
    destruct (decide (k ∈ keys)) as [Hin|Hin].
    + by rewrite decide_True by by apply list_elem_of_further.
    + rewrite decide_False; [done |]. by intros [?|?]%elem_of_cons.
Qed.

Lemma filter_fmap_keys (o : option string) (keys : list string) (f : string → cell) :
  filter (λ kv : string * cell, o = Some kv.1) ((λ k, (k, f k)) <$> keys)
  = (λ k, (k, f k)) <$> filter (λ k, o = Some k) keys.
Proof.
  induction keys as [|x keys IH]; [done |].
  rewrite fmap_cons, !filter_cons, IH. simpl. by case_decide.
Qed.

(** A left join against one row per key keeps the left rows as they are
    and looks the value up. *)
Lemma merge_left_unique_keys (left : list A) (keys : list string) (f : string → cell) :
  NoDup keys →
  merge_left key left ((λ k, (k, f k)) <$> keys)
  = (λ r, (r, k ← key r; if decide (k ∈ keys) then f k else None)) <$> left.
Proof.
  intros Hnd. unfold merge_left.
  induction left as [|r left IH]; [done |].
  rewrite bind_cons, IH, fmap_cons. clear IH.
  rewrite filter_fmap_keys, filter_eq_NoDup by done.
  destruct (key r) as [k|]; [|done]. simpl. by case_decide.
Qed.
End grouping.

Lemma ensure_metrics_eq (df : list raw_row) :
  ensure_metrics df
  = (λ r, {| raw := r;
             N_frentes_calc := fronts_of df (empresa r);
             N_produtos_total_calc := products_of df (empresa r) |}) <$> df.
Proof.
  unfold ensure_metrics, groupby_agg.
  rewrite (merge_left_unique_keys empresa df _
             (λ k, Some (nunique (frente <$> group_rows empresa k df))))
    by apply NoDup_group_keys.
  rewrite (merge_left_unique_keys (λ r : raw_row * cell, empresa r.1) _ _
             (λ k, series_max (N_produtos_total <$> group_rows empresa k df)))
    by apply NoDup_group_keys.
  rewrite <- !list_fmap_compose.
  apply Forall_fmap_ext_1, Forall_forall. intros r Hr. simpl.
  unfold fronts_of, products_of.
  destruct (empresa r) as [k|] eqn:Ek; simpl; [|done].
  by rewrite !decide_True by (apply elem_of_group_keys; eauto).
Qed.

(** ** ensure_metrics *)

Lemma elem_of_ensure_metrics (df : list raw_row) (r : derived_row) :
  r ∈ ensure_metrics df ↔
  raw r ∈ df
  ∧ N_frentes_calc r = fronts_of df (cliente r)
  ∧ N_produtos_total_calc r = products_of df (cliente r).
Proof.
  rewrite ensure_metrics_eq, list_elem_of_fmap. split.
  - by intros (r0 & -> & Hr0).
  - intros (Hr & Hf & Hp). exists (raw r). split; [|done].
    destruct r as [r0 nf np]. simpl in *. unfold cliente in *. simpl in *.
    by rewrite Hf, Hp.
Qed.

(** The join adds the two columns and leaves the rows of the frame alone. *)
Lemma ensure_metrics_raw (df : list raw_row) : raw <$> ensure_metrics df = df.
Proof.
  rewrite ensure_metrics_eq, <- list_fmap_compose.
  rewrite <- (list_fmap_id df) at 2. by apply Forall_fmap_ext_1, Forall_forall.
Qed.

Lemma elem_of_distinct_fronts (df : list raw_row) (k f : string) :
  f ∈ distinct_fronts df k ↔ ∃ r, r ∈ df ∧ empresa r = Some k ∧ frente r = Some f.
Proof.
  unfold distinct_fronts.
  rewrite elem_of_list_to_set, list_elem_of_omap.
  split.
  - intros (r & (Hr & Hk)%elem_of_group_rows & Hf). eauto.
  - intros (r & Hr & Hk & Hf). exists r. by rewrite elem_of_group_rows.
Qed.

Lemma omap_id_fmap {A B} (f : A → option B) (l : list A) : omap id (f <$> l) = omap f l.
Proof.
  induction l as [|x l IH]; [done |]. csimpl. by rewrite IH.
Qed.

Lemma size_list_to_set_remove_dups (l : list string) :
  size (list_to_set l : gset string) = length (remove_dups l).
Proof.
  rewrite <- (size_list_to_set (C := gset string)) by apply NoDup_remove_dups.
  f_equal. apply set_eq. intros x.
  by rewrite !elem_of_list_to_set, elem_of_remove_dups.
Qed.

Lemma nunique_distinct_fronts (df : list raw_row) (k : string) :
  nunique (frente <$> group_rows empresa k df) = Z.of_nat (size (distinct_fronts df k)).
Proof.
  unfold nunique, distinct_fronts.
  by rewrite omap_id_fmap, size_list_to_set_remove_dups.
Qed.

Lemma distinct_fronts_same_rows (df df' : list raw_row) (k : string) :
  (∀ x, x ∈ df' ↔ x ∈ df) → distinct_fronts df' k = distinct_fronts df k.
Proof.
  intros Hsame. apply set_eq. intros f.
  rewrite !elem_of_distinct_fronts. by setoid_rewrite Hsame.
Qed.

Lemma N_frentes_calc_of_client (df : list raw_row) (k : string) (r : derived_row) :
  r ∈ ensure_metrics df → cliente r = Some k →
  N_frentes_calc r = Some (Z.of_nat (size (distinct_fronts df k))).
Proof.
  intros (_ & -> & _)%elem_of_ensure_metrics ->. simpl.
  by rewrite nunique_distinct_fronts.
Qed.

(** C3. The fronts of a client are the non-missing front cells of its
    rows.  On every row of a client the derived fronts count is the number
    of these distinct fronts, and a frame with the same rows in another
    order, or with rows repeated, gives the same count. *)
Theorem N_frentes_calc_counts_distinct_fronts (df : list raw_row) (k : string) :
  (∀ f, f ∈ distinct_fronts df k ↔
        ∃ r, r ∈ df ∧ empresa r = Some k ∧ frente r = Some f)
  ∧ (∀ r, r ∈ ensure_metrics df → cliente r = Some k →
       N_frentes_calc r = Some (Z.of_nat (size (distinct_fronts df k))))
  ∧ (∀ df' r r',
       df' ≡ₚ df ∨ (∀ x, x ∈ df' ↔ x ∈ df) →
       r ∈ ensure_metrics df → r' ∈ ensure_metrics df' →
       cliente r = Some k → cliente r' = Some k →
       N_frentes_calc r' = N_frentes_calc r).
Proof.
  split_and!.
  - intros f. apply elem_of_distinct_fronts.
  - intros r. apply N_frentes_calc_of_client.
  - intros df' r r' Hsame Hr Hr' Hk Hk'.
    rewrite (N_frentes_calc_of_client df k r), (N_frentes_calc_of_client df' k r') by done.
    rewrite (distinct_fronts_same_rows df df'); [done |].
    destruct Hsame as [Hperm | Hsame]; [|done].
    intros x. by rewrite Hperm.
Qed.

(** C5. Two rows of the derived frame with the same client cell carry the
    same derived fronts count and the same derived product total. *)
Theorem ensure_metrics_broadcast (df : list raw_row) (r1 r2 : derived_row) :
  r1 ∈ ensure_metrics df → r2 ∈ ensure_metrics df →
  cliente r1 = cliente r2 →
  N_frentes_calc r1 = N_frentes_calc r2
  ∧ N_produtos_total_calc r1 = N_produtos_total_calc r2.
Proof.
  intros (_ & -> & ->)%elem_of_ensure_metrics (_ & -> & ->)%elem_of_ensure_metrics Hk.
  by rewrite Hk.
Qed.

(** ** Empty cells *)






(** ** client_table *)

Lemma cell_max_None (a b : cell) : cell_max a b = None ↔ a = None ∧ b = None.
Proof. destruct a, b; simpl; split; (done || by intros [? ?]). Qed.

Lemma series_max_None (s : list cell) :
  series_max s = None ↔ ∀ c, c ∈ s → c = None.
Proof.
  induction s as [|a s IH]; simpl.
  - split; [by intros _ c ?%elem_of_nil | done].
  - rewrite cell_max_None, IH. split.
    + intros [-> Hs] c [->|Hc]%elem_of_cons; auto.
    + intros Hall. split; [apply Hall, list_elem_of_here |].
      intros c Hc. by apply Hall, list_elem_of_further.
Qed.

(** [series_max] is the largest reading of the column. *)
Lemma series_max_Some (s : list cell) (m : Z) :
  series_max s = Some m ↔ Some m ∈ s ∧ ∀ x, Some x ∈ s → x ≤ m.
Proof.
  revert m. induction s as [|a s IH]; intros m; simpl.
  - split; [done | by intros [?%elem_of_nil _]].
  - destruct (series_max s) as [y|] eqn:Ey.
    + pose proof (proj1 (IH y) eq_refl) as [Hy Hle].
      destruct a as [x|]; simpl.
      * split.
        -- intros [= <-]. split.
           ++ destruct (Z.max_spec x y) as [[_ ->] | [_ ->]];
                [by apply list_elem_of_further | apply list_elem_of_here].
           ++ intros z [[= ->] | Hz]%elem_of_cons; [lia |].
              specialize (Hle z Hz). lia.
        -- intros [Hm Hmax]. f_equal.
           assert (x ≤ m) by apply Hmax, list_elem_of_here.
           assert (y ≤ m) by by apply Hmax, list_elem_of_further.
           apply elem_of_cons in Hm as [[= ->] | Hm]; [lia |].
           specialize (Hle m Hm). lia.
      * rewrite IH. split.
        -- intros [Hm Hmax]. split; [by apply list_elem_of_further |].
           by intros z [? | Hz]%elem_of_cons; [|apply Hmax].
        -- intros [Hm Hmax]. split.
           ++ by apply elem_of_cons in Hm as [? | Hm].
           ++ intros z Hz. by apply Hmax, list_elem_of_further.
    + pose proof (proj1 (series_max_None s) Ey) as Hnone.
      destruct a as [x|]; simpl.
      * split.
        -- intros [= <-]. split; [apply list_elem_of_here |].
           intros z [[= ->] | Hz]%elem_of_cons; [lia |].
           by specialize (Hnone _ Hz).
        -- intros [[[= ->] | Hm]%elem_of_cons _]; [done |].
           by specialize (Hnone _ Hm).
      * split; [done |]. intros [[? | Hm]%elem_of_cons _]; [done |].
        by specialize (Hnone _ Hm).
Qed.

Lemma client_table_eq (df : list derived_row) :
  client_table df = Ok (omap (client_row_of df) (group_keys cliente df)).
Proof.
  unfold client_table, dropna, to_numeric.
  induction (group_keys cliente df) as [|k keys IH]; [done |].
  rewrite !fmap_cons, filter_cons. csimpl. unfold client_row_of at 1.
  case_decide as Hd.
  - destruct Hd as [[nf Hf] [np Hp]]. rewrite Hf, Hp. simpl. by rewrite IH.
  - rewrite IH.
    destruct (series_max (N_frentes_calc <$> _)) as [nf|]; [|done].
    destruct (series_max (N_produtos_total_calc <$> _)) as [np|]; [|done].
    destruct Hd. eauto.
Qed.

Lemma client_row_of_Empresa (df : list derived_row) (k : string) (c : client_row) :
  client_row_of df k = Some c → Empresa c = k.
Proof.
  unfold client_row_of.
  destruct (series_max (N_frentes_calc <$> _)) as [nf|]; [|done].
  destruct (series_max (N_produtos_total_calc <$> _)) as [np|]; [|done].
  by intros [= <-].
Qed.

Lemma NoDup_client_table (df : list derived_row) (out : list client_row) :
  client_table df = Ok out → NoDup (Empresa <$> out).
Proof.
  rewrite client_table_eq. intros [= <-].
  pose proof (NoDup_group_keys cliente df) as Hnd.
  induction Hnd as [|k keys Hk Hnd IH]; [constructor |].
  csimpl. destruct (client_row_of df k) as [c|] eqn:Ec; [|done].
  csimpl. constructor; [|done].
  intros (c' & Hname & (k' & Hk' & Hc')%list_elem_of_omap)%list_elem_of_fmap.
  apply client_row_of_Empresa in Ec, Hc'. congruence.
Qed.

(** ** The range and list filter *)

Lemma range_filter_metric (mode : view_mode) (rng : Z * Z) (clients : list client_row) :
  range_filter mode rng clients
  = filter (λ r, between rng.1 rng.2 (metric mode r)) clients.
Proof. by destruct mode. Qed.

Lemma foldr_min_le (x : Z) (s : list Z) :
  foldr Z.min x s ≤ x ∧ ∀ y, y ∈ s → foldr Z.min x s ≤ y.
Proof.
  induction s as [|a s [IHx IHs]]; simpl.
  - split; [lia | by intros y ?%elem_of_nil].
  - split; [lia |]. intros y [-> | Hy]%elem_of_cons; [lia |].
    specialize (IHs y Hy). lia.
Qed.

Lemma foldr_max_ge (x : Z) (s : list Z) :
  x ≤ foldr Z.max x s ∧ ∀ y, y ∈ s → y ≤ foldr Z.max x s.
Proof.
  induction s as [|a s [IHx IHs]]; simpl.
  - split; [lia | by intros y ?%elem_of_nil].
  - split; [lia |]. intros y [-> | Hy]%elem_of_cons; [lia |].
    specialize (IHs y Hy). lia.
Qed.

Lemma series_min_int_le (s : list Z) (lo : Z) :
  series_min_int s = Ok lo → ∀ y, y ∈ s → lo ≤ y.
Proof.
  destruct s as [|x s]; [done |]. intros [= <-] y [-> | Hy]%elem_of_cons.
  - apply (proj1 (foldr_min_le x s)).
  - by apply (proj2 (foldr_min_le x s)).
Qed.

Lemma series_max_int_ge (s : list Z) (hi : Z) :
  series_max_int s = Ok hi → ∀ y, y ∈ s → y ≤ hi.
Proof.
  destruct s as [|x s]; [done |]. intros [= <-] y [-> | Hy]%elem_of_cons.
  - apply (proj1 (foldr_max_ge x s)).
  - by apply (proj2 (foldr_max_ge x s)).
Qed.

Lemma filter_all {A} (P : A → Prop) `{!∀ x, Decision (P x)} (l : list A) :
  (∀ x, x ∈ l → P x) → filter P l = l.
Proof.
  induction l as [|x l IH]; [done |]. intros Hall.
  rewrite filter_cons, decide_True by apply Hall, list_elem_of_here.
  rewrite IH; [done |]. intros y Hy. by apply Hall, list_elem_of_further.
Qed.

(** C7. On a non-empty client table, the bounds of the selected metric
    exist, and filtering by the range they span with an empty client list
    returns the table as it is. *)
Theorem full_range_filter_is_identity (mode : view_mode) (clients : list client_row) :
  clients ≠ [] →
  ∃ lo hi,
    series_min_int (metric mode <$> clients) = Ok lo
    ∧ series_max_int (metric mode <$> clients) = Ok hi
    ∧ apply_filters mode (lo, hi) [] clients = clients.
Proof.
  intros Hne.
  destruct (series_min_int (metric mode <$> clients)) as [lo|] eqn:Elo;
    [|by destruct clients].
  destruct (series_max_int (metric mode <$> clients)) as [hi|] eqn:Ehi;
    [|by destruct clients].
  exists lo, hi. split_and!; [done.. |].
  unfold apply_filters, list_filter. rewrite range_filter_metric.
  apply filter_all. intros r Hr. split; simpl.
  - by apply (series_min_int_le _ _ Elo), list_elem_of_fmap_2.
  - by apply (series_max_int_ge _ _ Ehi), list_elem_of_fmap_2.
Qed.

(** C8. With a non-empty client list, the filtered table is the table
    restricted to the rows that are in range and whose client is, letter
    for letter, a member of the list: both conditions at once. *)
Theorem filters_are_a_conjunction (mode : view_mode) (lo hi : Z)
    (client_list : list string) (clients : list client_row) :
  client_list ≠ [] →
  apply_filters mode (lo, hi) client_list clients
  = filter (λ r, between lo hi (metric mode r) ∧ Empresa r ∈ client_list) clients
  ∧ ∀ r, r ∈ apply_filters mode (lo, hi) client_list clients ↔
         r ∈ clients ∧ lo ≤ metric mode r ≤ hi ∧ Empresa r ∈ client_list.
Proof.
  intros Hne.
  assert (apply_filters mode (lo, hi) client_list clients
          = filter (λ r, between lo hi (metric mode r) ∧ Empresa r ∈ client_list) clients)
    as Heq.
  { unfold apply_filters, list_filter. rewrite range_filter_metric.
    destruct client_list as [|x l]; [done |].
    rewrite list_filter_filter. apply list_filter_iff. intros r. simpl. tauto. }
  split; [done |]. intros r.
  rewrite Heq, list_elem_of_filter. unfold between. tauto.
Qed.

(** ** The script run *)

(** Unfolds one layer of the script monad. *)
Ltac script_unfold :=
  unfold mbind, script_bind, mret, script_ret, lift, emit, st_stop,
    get_session, get_df_cached, get_client_list, set_df_cached, set_client_list.

(** The run of lines 140 to 201 when both sliders return: what the
    multiselect leaves in the session, and what is left to do once the
    filter has been applied. *)
Lemma dashboard_at_filter (inp : ui_inputs) (s : run_state) (df : list derived_row)
    (clients : list client_row) (rng : Z * Z) (n : nat) :
  df_cached (session s) = Some df →
  client_table df = Ok clients →
  selected_range inp clients = Ok rng →
  selected_top_n inp clients = Ok n →
  dashboard inp s
  = let selection :=
      filter (λ x, x ∈ merge_sort String.le (Empresa <$> clients))
        (default [] (client_list (session s))) in
    let shown :=
      [st_subheader "Filtros (faixa)"; st_divider;
       st_subheader "Filtro por lista de clientes (global)"] in
    let session' := {| df_cached := Some df; client_list := Some selection |} in
    match apply_filters (mode inp) rng selection clients with
    | [] =>
        (Stopped,
         {| session := session';
            page := (page s ++ shown ++ [st_warning "Com esses filtros, não há clientes para exibir. Ajuste a faixa ou a lista."])%list |})
    | _ :: _ =>
        render (mode inp) n df (apply_filters (mode inp) rng selection clients)
          {| session := session'; page := (page s ++ shown)%list |}
    end.
Proof.
  intros Hdf Hclients Hrng Hn.
  destruct clients as [|c cs]; [done |].
  unfold selected_range, held_range in Hrng. unfold selected_top_n in Hn.
  unfold dashboard. script_unfold.
  rewrite Hdf, Hclients.
  destruct (mode inp);
    cbn -[apply_filters render Nat.min merge_sort st_slider st_range_slider filter length]
      in Hrng |- *;
    change (metric Frentes) with N_frentes in Hrng;
    change (metric Produtos) with N_produtos in Hrng;
    rewrite Hrng, Hn;
    cbn -[apply_filters render Nat.min merge_sort filter length];
    destruct (apply_filters _ _ _ (c :: cs)); cbn -[render Nat.min merge_sort filter length];
    rewrite <- ?(assoc_L (++)); by rewrite Hdf.
Qed.

(** A selection made among the options is what the multiselect returns. *)
Lemma selection_among_options (clients : list client_row) (cl : list string) :
  (∀ x, x ∈ cl → x ∈ Empresa <$> clients) →
  filter (λ x, x ∈ merge_sort String.le (Empresa <$> clients)) cl = cl.
Proof.
  intros Hcl. apply filter_all. intros x Hx.
  rewrite merge_sort_Permutation. by apply Hcl.
Qed.

(** C9. When the two sliders of the sidebar return, the client list of the
    session is a selection among the clients of the table, and the filter
    leaves no client, the run ends at [st.stop()], not with an exception:
    the session is as it was, the last thing put on the page is the
    warning, and no chart, KPI or table is put on it. *)
Theorem empty_filter_warns_and_stops (inp : ui_inputs) (s : run_state)
    (df : list derived_row) (clients : list client_row)
    (cl : list string) (rng : Z * Z) (n : nat) :
  df_cached (session s) = Some df →
  client_list (session s) = Some cl →
  client_table df = Ok clients →
  selected_range inp clients = Ok rng →
  selected_top_n inp clients = Ok n →
  NoDup cl →
  (∀ x, x ∈ cl → x ∈ Empresa <$> clients) →
  apply_filters (mode inp) rng cl clients = [] →
  ∃ shown,
    dashboard inp s
    = (Stopped, {| session := session s; page := (page s ++ shown)%list |})
    ∧ last shown = Some (st_warning "Com esses filtros, não há clientes para exibir. Ajuste a faixa ou a lista.")
    ∧ Forall (λ e, is_presentation e = false) shown.
Proof.
  intros Hdf Hcl Hclients Hrng Hn _ Hsel Hempty.
  exists [st_subheader "Filtros (faixa)"; st_divider;
          st_subheader "Filtro por lista de clientes (global)";
          st_warning "Com esses filtros, não há clientes para exibir. Ajuste a faixa ou a lista."].
  split; [|split; [done | by repeat constructor]].
  rewrite (dashboard_at_filter inp s df clients rng n) by done.
  cbv zeta. rewrite Hcl. change (default [] (Some cl)) with cl.
  rewrite (selection_among_options clients cl Hsel), Hempty.
  destruct s as [[d l] p]. simpl in Hdf, Hcl. by subst.
Qed.

(** ** Loading a base *)

Lemma module_globals_load_default_df :
  module_globals !! "load_default_df" = Some (PyFunction def_load_default_df_21).
Proof. by vm_compute. Qed.

Lemma module_globals_pd : module_globals !! "pd" = Some (PyModule "pandas").
Proof. by vm_compute. Qed.

Lemma module_globals_DEFAULT_FILE : module_globals !! "DEFAULT_FILE" = None.
Proof. by vm_compute. Qed.

(** Under the module's own bindings the default loader cannot return. *)
Lemma load_default_df_NameError (fs : filesystem) :
  load_default_df module_globals fs = Raise (NameError "DEFAULT_FILE").
Proof.
  unfold load_default_df, load_name. rewrite module_globals_load_default_df. simpl.
  unfold load_default_df_21, load_name.
  by rewrite module_globals_pd, module_globals_DEFAULT_FILE.
Qed.

(** A run that finds no cached frame ends at line 99, and leaves none. *)
Lemma init_session_NameError (fs : filesystem) (s : run_state) :
  df_cached (session s) = None →
  init_session module_globals fs s = (Raised (NameError "DEFAULT_FILE"), s).
Proof.
  intros Hnone. unfold init_session. script_unfold. simpl.
  by rewrite Hnone, load_default_df_NameError.
Qed.

Lemma app_NameError (fs : filesystem) (inp : ui_inputs) (s : run_state) :
  df_cached (session s) = None →
  app module_globals fs inp s = (Raised (NameError "DEFAULT_FILE"), s).
Proof.
  intros Hnone. unfold app. script_unfold. by rewrite init_session_NameError.
Qed.

(** When the load or the validation raises, a handler leaves the run state
    as it found it. *)
Lemma use_uploaded_base_raised (up : result workbook) (s s' : run_state) (e : exn) :
  use_uploaded_base up s = (Raised e, s') → s' = s.
Proof.
  unfold use_uploaded_base. script_unfold.
  destruct (load_uploaded_df up) as [o|]; [|by intros [= _ <-]].
  destruct (as_frame o) as [df|]; [|by intros [= _ <-]].
  destruct (validate_df df) as [[]|]; [done | by intros [= _ <-]].
Qed.

Lemma use_default_base_raised (g : gmap string pyobj) (fs : filesystem)
    (s s' : run_state) (e : exn) :
  use_default_base g fs s = (Raised e, s') → s' = s.
Proof.
  unfold use_default_base. script_unfold.
  destruct (load_default_df g fs) as [o|]; [|by intros [= _ <-]].
  destruct (as_frame o) as [df|]; [|by intros [= _ <-]].
  destruct (validate_df df) as [[]|]; [done | by intros [= _ <-]].
Qed.

(** A handler that replaces the cached frame has validated the frame it
    loaded. *)
Lemma use_uploaded_base_changed (up : result workbook) (s s' : run_state) (o : outcome unit) :
  use_uploaded_base up s = (o, s') → session s' ≠ session s →
  ∃ df, load_uploaded_df up = Ok (PyFrame df) ∧ validate_df df = Ok tt.
Proof.
  unfold use_uploaded_base. script_unfold.
  destruct (load_uploaded_df up) as [o'|]; [|by intros [= _ <-]].
  destruct o' as [| | | | |df]; simpl; try by intros [= _ <-].
  destruct (validate_df df) as [[]|] eqn:Ev; [|by intros [= _ <-]].
  intros _ _. by exists df.
Qed.

Lemma use_default_base_changed (g : gmap string pyobj) (fs : filesystem)
    (s s' : run_state) (o : outcome unit) :
  use_default_base g fs s = (o, s') → session s' ≠ session s →
  ∃ df, load_default_df g fs = Ok (PyFrame df) ∧ validate_df df = Ok tt.
Proof.
  unfold use_default_base. script_unfold.
  destruct (load_default_df g fs) as [o'|]; [|by intros [= _ <-]].
  destruct o' as [| | | | |df]; simpl; try by intros [= _ <-].
  destruct (validate_df df) as [[]|] eqn:Ev; [|by intros [= _ <-]].
  intros _ _. by exists df.
Qed.

(** C10. In both load handlers, when [validate_df] raises on the frame just
    loaded, the handler ends with that exception and the run state, cached
    frame included, is the one it started from.  More generally a handler
    that raises leaves the state as it was, and a handler that changes the
    session has validated the frame it loaded. *)
Theorem load_handlers_keep_state_on_schema_error
    (g : gmap string pyobj) (fs : filesystem) (up : result workbook)
    (s : run_state) (df : DataFrame) (e : exn) :
  validate_df df = Raise e →
  (load_uploaded_df up = Ok (PyFrame df) → use_uploaded_base up s = (Raised e, s))
  ∧ (load_default_df g fs = Ok (PyFrame df) → use_default_base g fs s = (Raised e, s))
  ∧ (∀ e' s', use_uploaded_base up s = (Raised e', s') → s' = s)
  ∧ (∀ e' s', use_default_base g fs s = (Raised e', s') → s' = s)
  ∧ (∀ o s', use_uploaded_base up s = (o, s') → session s' ≠ session s →
       ∃ df', load_uploaded_df up = Ok (PyFrame df') ∧ validate_df df' = Ok tt)
  ∧ (∀ o s', use_default_base g fs s = (o, s') → session s' ≠ session s →
       ∃ df', load_default_df g fs = Ok (PyFrame df') ∧ validate_df df' = Ok tt).
Proof.
  intros Hval. split_and!.
  - intros Hload. unfold use_uploaded_base. script_unfold.
    by rewrite Hload; simpl; rewrite Hval.
  - intros Hload. unfold use_default_base. script_unfold.
    by rewrite Hload; simpl; rewrite Hval.
  - intros e' s'. apply use_uploaded_base_raised.
  - intros e' s'. apply use_default_base_raised.
  - intros o s'. apply use_uploaded_base_changed.
  - intros o s'. apply use_default_base_changed.
Qed.

(** C1. With the default workbook in place and valid, the call of
    [load_default_df] still raises [NameError]: the name is bound to the
    definition of line 21, which reads [DEFAULT_FILE] as a global, and
    only the body of the definition of line 17 assigns it.  The first run
    of the script ends with that exception and no cached frame. *)
Theorem default_base_is_never_loaded :
  read_excel sample_fs "Clientes_25-26_frentes_padronizado.xlsx" "Brasil_Latam"
  = Ok sample_frame
  ∧ validate_df sample_frame = Ok tt
  ∧ load_default_df module_globals sample_fs = Raise (NameError "DEFAULT_FILE")
  ∧ app module_globals sample_fs untouched fresh
    = (Raised (NameError "DEFAULT_FILE"), fresh).
Proof.
  split_and!.
  - by vm_compute.
  - by vm_compute.
  - apply load_default_df_NameError.
  - by apply app_NameError.
Qed.

(** ** The statements at the sample data *)

(** The scenario of the specification: two fronts and five products for
    Acme, one front and three products for Beta. *)
Example client_table_sample : client_table (ensure_metrics sample_rows) = Ok sample_clients.
Proof. by vm_compute. Qed.

Example products_range_sample :
  apply_filters Produtos (4, 10) [] sample_clients
  = [ {| Empresa := "Acme"; N_frentes := 2; N_produtos := 5 |} ].
Proof. by vm_compute. Qed.

(** The same rows shuffled and repeated give Acme the same two fronts. *)
Example N_frentes_calc_shuffled :
  N_frentes_calc <$> ensure_metrics (reverse sample_rows ++ sample_rows)
  = [Some 1; Some 2; Some 2; Some 2; Some 2; Some 1].
Proof. by vm_compute. Qed.

Lemma N_frentes_calc_witness :
  acme_ops ∈ ensure_metrics sample_rows
  ∧ cliente acme_ops = Some "Acme"
  ∧ N_frentes_calc acme_ops
    = Some (Z.of_nat (size (distinct_fronts sample_rows "Acme"))).
Proof.
  assert (acme_ops ∈ ensure_metrics sample_rows) as H by (vm_compute; repeat constructor).
  split_and!; [exact H | reflexivity |].
  exact (proj1 (proj2 (N_frentes_calc_counts_distinct_fronts sample_rows "Acme"))
           acme_ops H eq_refl).
Defined.

Lemma ensure_metrics_broadcast_witness :
  acme_ops ∈ ensure_metrics sample_rows
  ∧ acme_sales ∈ ensure_metrics sample_rows
  ∧ cliente acme_ops = cliente acme_sales
  ∧ N_frentes_calc acme_ops = N_frentes_calc acme_sales
  ∧ N_produtos_total_calc acme_ops = N_produtos_total_calc acme_sales.
Proof.
  assert (acme_ops ∈ ensure_metrics sample_rows) as H1 by (vm_compute; repeat constructor).
  assert (acme_sales ∈ ensure_metrics sample_rows) as H2 by (vm_compute; repeat constructor).
  split_and!; [exact H1 | exact H2 | reflexivity | ..];
    apply (ensure_metrics_broadcast sample_rows acme_ops acme_sales H1 H2 eq_refl).
Defined.



Example validate_df_short_frame :
  validate_df short_frame
  = Raise (ValueError
             "Colunas obrigatórias ausentes: ['Frente de Negócio', 'N_produtos_total']").
Proof. by vm_compute. Qed.

Lemma full_range_filter_witness :
  sample_clients ≠ []
  ∧ ∃ lo hi,
      series_min_int (metric Produtos <$> sample_clients) = Ok lo
      ∧ series_max_int (metric Produtos <$> sample_clients) = Ok hi
      ∧ apply_filters Produtos (lo, hi) [] sample_clients = sample_clients.
Proof.
  assert (sample_clients ≠ []) as H by (vm_compute; discriminate).
  split; [exact H |].
  exact (full_range_filter_is_identity Produtos sample_clients H).
Defined.

Lemma filters_conjunction_witness :
  ["Beta"; "Acme"] ≠ []
  ∧ apply_filters Produtos (4, 10) ["Beta"; "Acme"] sample_clients
    = filter (λ r, between 4 10 (metric Produtos r) ∧ Empresa r ∈ ["Beta"; "Acme"])
        sample_clients.
Proof.
  assert (["Beta"; "Acme"] ≠ []) as H by discriminate.
  split; [exact H |].
  exact (proj1 (filters_are_a_conjunction Produtos 4 10 ["Beta"; "Acme"] sample_clients H)).
Defined.

Example client_table_eleven :
  client_table (ensure_metrics eleven_rows) = Ok eleven_clients.
Proof. by vm_compute. Qed.

Lemma empty_filter_witness :
  df_cached (session eleven_state) = Some (ensure_metrics eleven_rows)
  ∧ client_list (session eleven_state) = Some []
  ∧ client_table (ensure_metrics eleven_rows) = Ok eleven_clients
  ∧ selected_range narrowed eleven_clients = Ok (2, 4)
  ∧ selected_top_n narrowed eleven_clients = Ok 11%nat
  ∧ apply_filters (mode narrowed) (2, 4) [] eleven_clients = []
  ∧ ∃ shown,
      dashboard narrowed eleven_state
      = (Stopped, {| session := session eleven_state;
                     page := (page eleven_state ++ shown)%list |})
      ∧ last shown = Some (st_warning "Com esses filtros, não há clientes para exibir. Ajuste a faixa ou a lista.")
      ∧ Forall (λ e, is_presentation e = false) shown.
Proof.
  assert (client_table (ensure_metrics eleven_rows) = Ok eleven_clients) as H3
    by (vm_compute; reflexivity).
  assert (selected_range narrowed eleven_clients = Ok (2, 4)) as H4
    by (vm_compute; reflexivity).
  assert (selected_top_n narrowed eleven_clients = Ok 11%nat) as H5
    by (vm_compute; reflexivity).
  assert (apply_filters (mode narrowed) (2, 4) [] eleven_clients = []) as H6
    by (vm_compute; reflexivity).
  assert (∀ x : string, x ∈ @nil string → x ∈ Empresa <$> eleven_clients) as H7
    by (intros x Hx; by apply elem_of_nil in Hx).
  split_and!; [reflexivity | reflexivity | exact H3 | exact H4 | exact H5 | exact H6 |].
  exact (empty_filter_warns_and_stops narrowed eleven_state _ _ _ _ _
           eq_refl eq_refl H3 H4 H5 (NoDup_nil_2 (A := string)) H7 H6).
Defined.

(** An upload with the sheet and its columns replaces the base. *)
Example use_uploaded_base_sample :
  use_uploaded_base sample_upload unread_state
  = (Done tt,
     {| session := {| df_cached := Some (ensure_metrics sample_rows);
                      client_list := Some [] |};
        page := [st_success "Base enviada carregada."] |}).
Proof. by vm_compute. Qed.

Lemma load_handlers_witness :
  validate_df short_frame
  = Raise (ValueError
             "Colunas obrigatórias ausentes: ['Frente de Negócio', 'N_produtos_total']")
  ∧ load_uploaded_df short_upload = Ok (PyFrame short_frame)
  ∧ use_uploaded_base short_upload sample_state
    = (Raised (ValueError
                 "Colunas obrigatórias ausentes: ['Frente de Negócio', 'N_produtos_total']"),
       sample_state).
Proof.
  assert (validate_df short_frame
          = Raise (ValueError
                     "Colunas obrigatórias ausentes: ['Frente de Negócio', 'N_produtos_total']"))
    as Hval by (vm_compute; reflexivity).
  assert (load_uploaded_df short_upload = Ok (PyFrame short_frame)) as Hload
    by (vm_compute; reflexivity).
  split_and!; [exact Hval | exact Hload |].
  exact (proj1 (load_handlers_keep_state_on_schema_error
                  module_globals sample_fs short_upload sample_state short_frame _ Hval)
           Hload).
Defined.

(** * Further properties *)

(** ** The derived columns *)

(** X1. On a frame whose product readings are within what [float64] holds
    exactly (2^53 in absolute value), the derived product total of a
    client is the largest product reading on its rows: it is attained on
    one of them and bounds them all, and it is missing exactly when every
    reading of the client is. *)
Theorem N_produtos_total_calc_is_max (df : list raw_row) (k : string) (r : derived_row) :
  (∀ r0 x, r0 ∈ df → N_produtos_total r0 = Some x → - 2 ^ 53 ≤ x ≤ 2 ^ 53) →
  r ∈ ensure_metrics df → cliente r = Some k →
  (∀ m, N_produtos_total_calc r = Some m ↔
        (∃ r0, r0 ∈ df ∧ empresa r0 = Some k ∧ N_produtos_total r0 = Some m)
        ∧ ∀ r0 x, r0 ∈ df → empresa r0 = Some k → N_produtos_total r0 = Some x → x ≤ m)
  ∧ (N_produtos_total_calc r = None ↔
     ∀ r0, r0 ∈ df → empresa r0 = Some k → N_produtos_total r0 = None).
Proof.
  intros _ (_ & _ & ->)%elem_of_ensure_metrics ->. simpl. split.
  - intros m. rewrite series_max_Some. split.
    + intros [(r0 & Hm & (Hr0 & Hk)%elem_of_group_rows)%list_elem_of_fmap Hmax].
      split; [eauto |]. intros r1 x Hr1 Hk1 Hx. apply Hmax.
      apply list_elem_of_fmap. exists r1. by rewrite elem_of_group_rows.
    + intros [(r0 & Hr0 & Hk & Hm) Hmax]. split.
      * apply list_elem_of_fmap. exists r0. by rewrite elem_of_group_rows.
      * intros x (r1 & Hx & (Hr1 & Hk1)%elem_of_group_rows)%list_elem_of_fmap. eauto.
  - rewrite series_max_None. split.
    + intros Hall r0 Hr0 Hk. apply Hall, list_elem_of_fmap.
      exists r0. by rewrite elem_of_group_rows.
    + intros Hall c (r0 & -> & (Hr0 & Hk)%elem_of_group_rows)%list_elem_of_fmap. auto.
Qed.

Lemma N_produtos_total_calc_witness :
  (∀ r0 x, r0 ∈ sample_rows → N_produtos_total r0 = Some x → - 2 ^ 53 ≤ x ≤ 2 ^ 53)
  ∧ acme_ops ∈ ensure_metrics sample_rows
  ∧ cliente acme_ops = Some "Acme"
  ∧ (N_produtos_total_calc acme_ops = None ↔
     ∀ r0, r0 ∈ sample_rows → empresa r0 = Some "Acme" → N_produtos_total r0 = None).
Proof.
  assert (∀ r0 x, r0 ∈ sample_rows → N_produtos_total r0 = Some x → - 2 ^ 53 ≤ x ≤ 2 ^ 53)
    as Hb.
  { intros r0 x Hr0. unfold sample_rows in Hr0.
    repeat (apply elem_of_cons in Hr0 as [-> | Hr0]; [intros [= <-]; lia |]).
    by apply elem_of_nil in Hr0. }
  assert (acme_ops ∈ ensure_metrics sample_rows) as H by (vm_compute; repeat constructor).
  split_and!; [exact Hb | exact H | reflexivity |].
  exact (proj2 (N_produtos_total_calc_is_max sample_rows "Acme" acme_ops Hb H eq_refl)).
Defined.

(** X2. The joins add the two columns and nothing else: the rows of the frame
    come back once each, in their order. *)
Theorem ensure_metrics_keeps_rows (df : list raw_row) :
  raw <$> ensure_metrics df = df ∧ length (ensure_metrics df) = length df.
Proof.
  assert (raw <$> ensure_metrics df = df) as Hraw.
  { rewrite ensure_metrics_eq, <- list_fmap_compose.
    rewrite <- (list_fmap_id df) at 2. by apply Forall_fmap_ext_1, Forall_forall. }
  split; [done |]. rewrite <- Hraw at 2. by rewrite length_fmap.
Qed.





(** X4. A row whose client cell is missing gets two missing derived cells. *)
Theorem missing_client_gets_missing_metrics (df : list raw_row) (r : derived_row) :
  r ∈ ensure_metrics df → cliente r = None →
  N_frentes_calc r = None ∧ N_produtos_total_calc r = None.
Proof. by intros (_ & -> & ->)%elem_of_ensure_metrics ->. Qed.

Lemma missing_client_witness :
  orphan ∈ ensure_metrics orphan_rows
  ∧ cliente orphan = None
  ∧ N_frentes_calc orphan = None ∧ N_produtos_total_calc orphan = None.
Proof.
  assert (orphan ∈ ensure_metrics orphan_rows) as H by (vm_compute; repeat constructor).
  split_and!; [exact H | reflexivity | ..];
    apply (missing_client_gets_missing_metrics orphan_rows orphan H eq_refl).
Defined.

(** ** The client table *)

Lemma omap_filter_is_Some {A} (key : A → option string) (l : list A) :
  omap key (filter (λ r, is_Some (key r)) l) = omap key l.
Proof.
  induction l as [|x l IH]; [done |].
  rewrite filter_cons. destruct (key x) as [k|] eqn:Ek.
  - rewrite decide_True by eauto. csimpl. by rewrite Ek, IH.
  - rewrite decide_False by (by intros [? ?]). csimpl. by rewrite Ek.
Qed.

Lemma group_rows_filter_is_Some {A} (key : A → option string) (k : string) (l : list A) :
  group_rows key k (filter (λ r, is_Some (key r)) l) = group_rows key k l.
Proof.
  unfold group_rows. rewrite list_filter_filter. apply list_filter_iff.
  intros r. split; [tauto |]. intros Hk. split; [done |]. rewrite Hk. eauto.
Qed.

(** X7. Rows whose client cell is missing do not count: the client table of a
    frame is the client table of its rows that name a client. *)
Theorem client_table_ignores_missing_clients (df : list derived_row) :
  client_table (filter (λ r, is_Some (cliente r)) df) = client_table df.
Proof.
  rewrite !client_table_eq. f_equal.
  unfold group_keys. rewrite omap_filter_is_Some.
  apply list_omap_ext, Forall2_same_length_lookup. split; [done |].
  intros i k k' Hk Hk'. assert (k' = k) as -> by congruence.
  unfold client_row_of. by rewrite group_rows_filter_is_Some.
Qed.

Lemma StronglySorted_omap_keys (f : string → option client_row) (keys : list string) :
  (∀ k c, f k = Some c → Empresa c = k) →
  StronglySorted String.le keys →
  StronglySorted String.le (Empresa <$> omap f keys).
Proof.
  intros Hf. induction 1 as [|k keys Hs IH Hall]; [constructor |].
  csimpl. destruct (f k) as [c|] eqn:Ec; [|done].
  csimpl. rewrite (Hf _ _ Ec). constructor; [done |].
  apply Forall_forall.
  intros k' (c' & -> & (k'' & Hin & Hc')%list_elem_of_omap)%list_elem_of_fmap.
  rewrite (Hf _ _ Hc'). by apply (proj1 (Forall_forall _ _) Hall).
Qed.

(** X8. The client table comes out by increasing client name. *)
Theorem client_table_sorted (df : list derived_row) :
  ∃ out, client_table df = Ok out ∧ StronglySorted String.le (Empresa <$> out).
Proof.
  eexists. split; [apply client_table_eq |].
  apply StronglySorted_omap_keys.
  - intros k c. apply client_row_of_Empresa.
  - apply (StronglySorted_merge_sort String.le).
Qed.

(** ** validate_df, again *)

Lemma missing_cols_nil (df : DataFrame) :
  missing_cols df = [] ↔ ∀ c, c ∈ REQUIRED_COLS → c ∈ columns df.
Proof.
  split.
  - intros Hnil c Hc. destruct (decide (c ∈ columns df)) as [|Hn]; [done |].
    assert (c ∈ missing_cols df) as Hin by by apply elem_of_missing_cols.
    rewrite Hnil in Hin. by apply elem_of_nil in Hin.
  - intros Hall. destruct (missing_cols df) as [|c l] eqn:E; [done |].
    assert (c ∈ missing_cols df) as [Hc Hn]%elem_of_missing_cols
      by (rewrite E; apply list_elem_of_here).
    by destruct Hn; apply Hall.
Qed.

(** X9. [validate_df] accepts a frame exactly when every required label is
    among its columns, and its result, message included, depends on the
    frame only through which required labels it has: the order of the
    columns, repeated labels and further columns make no difference. *)
Theorem validate_df_reads_required_labels_only (df : DataFrame) :
  (validate_df df = Ok tt ↔ ∀ c, c ∈ REQUIRED_COLS → c ∈ columns df)
  ∧ ∀ df', (∀ c, c ∈ REQUIRED_COLS → c ∈ columns df' ↔ c ∈ columns df) →
           validate_df df' = validate_df df.
Proof.
  split.
  - rewrite <- missing_cols_nil. unfold validate_df.
    by destruct (missing_cols df).
  - intros df' Hsame. unfold validate_df.
    replace (missing_cols df') with (missing_cols df); [done |].
    unfold missing_cols.
    induction REQUIRED_COLS as [|c l IH]; [done |].
    rewrite !filter_cons.
    rewrite IH by (intros c' Hc'; by apply Hsame, list_elem_of_further).
    pose proof (Hsame c (list_elem_of_here _ _)) as Hc.
    destruct (decide (c ∉ columns df)), (decide (c ∉ columns df')); tauto || done.
Qed.

Lemma validate_df_labels_witness :
  (∀ c, c ∈ REQUIRED_COLS → c ∈ columns wide_frame ↔ c ∈ columns sample_frame)
  ∧ validate_df wide_frame = validate_df sample_frame.
Proof.
  assert (∀ c, c ∈ REQUIRED_COLS → c ∈ columns wide_frame ↔ c ∈ columns sample_frame) as H.
  { intros c Hc. split; [done |]. intros _. unfold REQUIRED_COLS in Hc.
    repeat (apply elem_of_cons in Hc as [-> | Hc]; [vm_compute; repeat constructor |]).
    by apply elem_of_nil in Hc. }
  split; [exact H |].
  exact (proj2 (validate_df_reads_required_labels_only sample_frame) wide_frame H).
Defined.

(** ** The filter, again *)

(** X10. The filter only ever removes rows: its result is a sub-list of the
    client table, in the same order, so client names stay unique; naming
    clients can only shrink what the range alone lets through; and
    filtering twice is filtering once. *)
Theorem apply_filters_only_removes (mode : view_mode) (rng : Z * Z)
    (cl : list string) (clients : list client_row) :
  apply_filters mode rng cl clients `sublist_of` clients
  ∧ (NoDup (Empresa <$> clients) →
     NoDup (Empresa <$> apply_filters mode rng cl clients))
  ∧ apply_filters mode rng cl clients `sublist_of` apply_filters mode rng [] clients
  ∧ apply_filters mode rng cl (apply_filters mode rng cl clients)
    = apply_filters mode rng cl clients.
Proof.
  assert (∀ l, list_filter cl l `sublist_of` l) as Hlist.
  { intros l. unfold list_filter. destruct cl; [done | apply sublist_filter]. }
  assert (apply_filters mode rng cl clients `sublist_of` clients) as Hsub.
  { unfold apply_filters. etrans; [apply Hlist |].
    rewrite range_filter_metric. apply sublist_filter. }
  split_and!; [done | | apply Hlist |].
  - intros Hnd. eapply sublist_NoDup; [done |]. by apply (fmap_sublist Empresa).
  - unfold apply_filters. rewrite !range_filter_metric.
    unfold list_filter. destruct cl as [|x cl'].
    + by rewrite list_filter_filter, (list_filter_iff _ (λ r, between rng.1 rng.2 (metric mode r)))
        by (intros; tauto).
    + rewrite !list_filter_filter. apply list_filter_iff. intros r. tauto.
Qed.

Lemma apply_filters_only_removes_witness :
  NoDup (Empresa <$> sample_clients)
  ∧ NoDup (Empresa <$> apply_filters Produtos (4, 10) ["Acme"] sample_clients).
Proof.
  assert (NoDup (Empresa <$> sample_clients)) as H.
  { vm_compute. repeat constructor; intros Hin;
      repeat (apply elem_of_cons in Hin as [[=] | Hin]); by apply elem_of_nil in Hin. }
  split; [exact H |].
  exact (proj1 (proj2 (apply_filters_only_removes Produtos (4, 10) ["Acme"] sample_clients)) H).
Defined.

(** X11. Widening the range never loses a client. *)
Theorem apply_filters_monotone (mode : view_mode) (lo hi lo' hi' : Z)
    (cl : list string) (clients : list client_row) (r : client_row) :
  lo' ≤ lo → hi ≤ hi' →
  r ∈ apply_filters mode (lo, hi) cl clients →
  r ∈ apply_filters mode (lo', hi') cl clients.
Proof.
  intros Hlo Hhi. unfold apply_filters. rewrite !range_filter_metric.
  unfold list_filter, between. destruct cl as [|x cl']; simpl;
    rewrite ?list_elem_of_filter; intuition lia.
Qed.

Lemma apply_filters_monotone_witness :
  2 ≤ 4 ∧ 10 ≤ 10
  ∧ {| Empresa := "Acme"; N_frentes := 2; N_produtos := 5 |}
    ∈ apply_filters Produtos (4, 10) [] sample_clients
  ∧ {| Empresa := "Acme"; N_frentes := 2; N_produtos := 5 |}
    ∈ apply_filters Produtos (2, 10) [] sample_clients.
Proof.
  assert ({| Empresa := "Acme"; N_frentes := 2; N_produtos := 5 |}
          ∈ apply_filters Produtos (4, 10) [] sample_clients) as H
    by (vm_compute; repeat constructor).
  split_and!; [lia | lia | exact H |].
  apply (apply_filters_monotone Produtos 4 10 2 10 [] sample_clients _); [lia | lia | exact H].
Defined.

Lemma foldr_min_elem_of (x : Z) (s : list Z) : foldr Z.min x s ∈ x :: s.
Proof.
  induction s as [|a s IH]; simpl; [apply list_elem_of_here |].
  destruct (Z.min_spec a (foldr Z.min x s)) as [[_ ->] | [_ ->]].
  - apply list_elem_of_further, list_elem_of_here.
  - apply elem_of_cons in IH as [-> | IH]; [apply list_elem_of_here |].
    by do 2 apply list_elem_of_further.
Qed.

Lemma foldr_max_elem_of (x : Z) (s : list Z) : foldr Z.max x s ∈ x :: s.
Proof.
  induction s as [|a s IH]; simpl; [apply list_elem_of_here |].
  destruct (Z.max_spec a (foldr Z.max x s)) as [[_ ->] | [_ ->]].
  - apply elem_of_cons in IH as [-> | IH]; [apply list_elem_of_here |].
    by do 2 apply list_elem_of_further.
  - apply list_elem_of_further, list_elem_of_here.
Qed.

(** X12. The slider bounds of lines 147 and 148: on a client table with at
    least one row both exist, each is the metric of some client, the lower
    one is at most the upper one, and every client lies between them.  On
    an empty table neither exists: the conversion to [int] raises. *)
Theorem slider_bounds (mode : view_mode) (clients : list client_row) :
  (clients ≠ [] →
   ∃ lo hi,
     series_min_int (metric mode <$> clients) = Ok lo
     ∧ series_max_int (metric mode <$> clients) = Ok hi
     ∧ lo ≤ hi
     ∧ (∃ r, r ∈ clients ∧ metric mode r = lo)
     ∧ (∃ r, r ∈ clients ∧ metric mode r = hi)
     ∧ ∀ r, r ∈ clients → lo ≤ metric mode r ≤ hi)
  ∧ (clients = [] →
     ∃ e, series_min_int (metric mode <$> clients) = Raise e
          ∧ series_max_int (metric mode <$> clients) = Raise e).
Proof.
  split; [|intros ->; by eexists].
  destruct clients as [|c cs]; [done |]. intros _.
  exists (foldr Z.min (metric mode c) (metric mode <$> cs)),
         (foldr Z.max (metric mode c) (metric mode <$> cs)).
  pose proof (foldr_min_le (metric mode c) (metric mode <$> cs)) as [Hlo Hlos].
  pose proof (foldr_max_ge (metric mode c) (metric mode <$> cs)) as [Hhi Shis].
  split_and!; [done | done | lia | | |].
  - pose proof (foldr_min_elem_of (metric mode c) (metric mode <$> cs)) as Hin.
    rewrite <- fmap_cons in Hin. apply list_elem_of_fmap in Hin as (r & Hr & Hin). eauto.
  - pose proof (foldr_max_elem_of (metric mode c) (metric mode <$> cs)) as Hin.
    rewrite <- fmap_cons in Hin. apply list_elem_of_fmap in Hin as (r & Hr & Hin). eauto.
  - intros r [-> | Hr]%elem_of_cons; [lia |].
    split; [apply Hlos | apply Shis]; by apply list_elem_of_fmap_2.
Qed.

Lemma slider_bounds_witness :
  sample_clients ≠ []
  ∧ ∃ lo hi,
      series_min_int (metric Frentes <$> sample_clients) = Ok lo
      ∧ series_max_int (metric Frentes <$> sample_clients) = Ok hi
      ∧ lo ≤ hi
      ∧ (∃ r, r ∈ sample_clients ∧ metric Frentes r = lo)
      ∧ (∃ r, r ∈ sample_clients ∧ metric Frentes r = hi)
      ∧ ∀ r, r ∈ sample_clients → lo ≤ metric Frentes r ≤ hi.
Proof.
  assert (sample_clients ≠ []) as H by (vm_compute; discriminate).
  split; [exact H |].
  exact (proj1 (slider_bounds Frentes sample_clients) H).
Defined.

(** ** The page *)

(** X13. When the cached frame yields no client at all (no row names a client
    with both metrics readable), the run shows the error of line 144 and
    stops there: no bound is computed, nothing else is shown, and the
    session is left alone. *)
Theorem dashboard_without_clients (inp : ui_inputs) (s : run_state)
    (df : list derived_row) :
  df_cached (session s) = Some df →
  client_table df = Ok [] →
  dashboard inp s
  = (Stopped,
     {| session := session s;
        page := (page s ++
                 [st_error "Não há clientes válidos para analisar (verifique a base)."])%list |}).
Proof.
  intros Hdf Hnone. unfold dashboard. script_unfold. by rewrite Hdf, Hnone.
Qed.

Lemma dashboard_without_clients_witness :
  df_cached (session unread_state) = Some (ensure_metrics [row "Gama" "Ops" None])
  ∧ client_table (ensure_metrics [row "Gama" "Ops" None]) = Ok []
  ∧ dashboard untouched unread_state
    = (Stopped,
       {| session := session unread_state;
          page := (page unread_state ++
                   [st_error "Não há clientes válidos para analisar (verifique a base)."])%list |}).
Proof.
  assert (client_table (ensure_metrics [row "Gama" "Ops" None]) = Ok []) as H
    by (vm_compute; reflexivity).
  split_and!; [reflexivity | exact H |].
  exact (dashboard_without_clients untouched unread_state _ eq_refl H).
Defined.

(** ** What a run leaves alone *)

Section keeps_base.
Context {A B : Type}.

Lemma keeps_base_ret (a : A) : keeps_base (mret a : script A).
Proof. by intros s. Qed.

Lemma keeps_base_lift (r : result A) : keeps_base (lift r).
Proof. intros s. unfold lift. by destruct r. Qed.

Lemma keeps_base_stop : keeps_base (st_stop : script A).
Proof. by intros s. Qed.

Lemma keeps_base_bind (c : script A) (k : A → script B) :
  keeps_base c → (∀ a, keeps_base (k a)) → keeps_base (c ≫= k).
Proof.
  intros Hc Hk s. specialize (Hc s). unfold mbind, script_bind.
  destruct (c s) as [[a| |e] s1]; [|done..].
  destruct (Hk a s1) as [Hdf Hpage], Hc as [Hdf1 Hpage1]. simpl in Hdf1, Hpage1.
  split; [congruence | by etrans].
Qed.

End keeps_base.

Lemma keeps_base_emit (e : element) : keeps_base (emit e).
Proof. intros s. split; [done |]. by apply prefix_app_r. Qed.

Lemma keeps_base_get_df_cached : keeps_base get_df_cached.
Proof.
  intros s. unfold get_df_cached. by destruct (df_cached (session s)) eqn:E; rewrite ?E.
Qed.

Lemma keeps_base_get_client_list : keeps_base get_client_list.
Proof. intros s. unfold get_client_list. by destruct (client_list (session s)). Qed.

Lemma keeps_base_multiselect (options : list string) : keeps_base (st_multiselect options).
Proof. by intros s. Qed.

Create HintDb keeps_base.
#[local] Hint Resolve keeps_base_ret keeps_base_lift keeps_base_stop keeps_base_emit
  keeps_base_get_df_cached keeps_base_get_client_list keeps_base_multiselect : keeps_base.

(** Goes through a script, bind by bind. *)
Ltac keeps_base_steps :=
  repeat first
    [ apply keeps_base_bind; [|intros ?]
    | progress auto with keeps_base
    | lazymatch goal with
      | |- keeps_base (match ?x with _ => _ end) => destruct x
      end ].

(** X15. A run of lines 140 to 281 never writes the cached frame and only
    ever adds to the page, whatever the widgets hold and however the run
    ends. *)
Theorem dashboard_keeps_cached_frame (inp : ui_inputs) (s : run_state) :
  df_cached (session (dashboard inp s).2) = df_cached (session s)
  ∧ page s `prefix_of` page (dashboard inp s).2.
Proof.
  revert s. change (keeps_base (dashboard inp)).
  unfold dashboard. cbv zeta. keeps_base_steps.
Qed.


(** ** What the charts and the table are given *)

Lemma metric_ge_trans (mode : view_mode) : Transitive (metric_ge mode).
Proof. intros a b c. unfold metric_ge. lia. Qed.

Lemma metric_ge_total (mode : view_mode) : Total (metric_ge mode).
Proof. intros a b. unfold metric_ge. lia. Qed.

(** X16. The treemap shows the [top_n] largest kept clients: its rows are
    [top_n] of the kept rows (all of them when there are fewer), by
    decreasing metric, and no row left out has a larger metric than a row
    shown. *)
Theorem clients_view_is_top_n (mode : view_mode) (top_n : nat) (bf : list client_row) :
  let clients_view := take top_n (sort_desc mode bf) in
  let rest := drop top_n (sort_desc mode bf) in
  length clients_view = Nat.min top_n (length bf)
  ∧ (clients_view ++ rest)%list ≡ₚ bf
  ∧ StronglySorted (metric_ge mode) clients_view
  ∧ ∀ r r', r ∈ clients_view → r' ∈ rest → metric mode r' ≤ metric mode r.
Proof.
  intros clients_view rest. unfold clients_view, rest, sort_desc.
  pose proof (@StronglySorted_merge_sort _ (metric_ge mode) _
                (metric_ge_trans mode) (metric_ge_total mode) bf) as Hsorted.
  rewrite <- (take_drop top_n (merge_sort (metric_ge mode) bf)) in Hsorted.
  split_and!.
  - by rewrite length_take, merge_sort_Permutation.
  - by rewrite take_drop, merge_sort_Permutation.
  - by eapply StronglySorted_app_1_l.
  - intros r r' Hr Hr'.
    by apply (StronglySorted_app_1_elem_of _ _ _ r r' Hsorted).
Qed.

Lemma sum_counts_filter (keys s : list Z) :
  NoDup keys →
  foldr Z.add 0 ((λ v, Z.of_nat (length (filter (λ x, x = v) s))) <$> keys)
  = Z.of_nat (length (filter (λ x, x ∈ keys) s)).
Proof.
  induction 1 as [|k keys Hk Hnd IH].
  - rewrite (list_filter_iff _ (λ _, False)) by (intros x; by rewrite elem_of_nil).
    by induction s.
  - rewrite fmap_cons. cbn [foldr]. rewrite IH. clear IH.
    induction s as [|x s IHs]; [done |].
    rewrite !filter_cons.
    destruct (decide (x = k)) as [->|Hne].
    + rewrite (decide_True (P := k ∈ k :: keys)) by apply list_elem_of_here.
      rewrite (decide_False (P := k ∈ keys)) by done. simpl length. lia.
    + destruct (decide (x ∈ keys)) as [Hin|Hin].
      * rewrite (decide_True (P := x ∈ k :: keys)) by by apply list_elem_of_further.
        simpl length. lia.
      * rewrite (decide_False (P := x ∈ k :: keys)); [done |].
        by intros [?|?]%elem_of_cons.
Qed.

(** X17. The distribution under a bar chart: its values are the distinct values
    of the column, each once and by increasing value; each comes with the
    number of rows that carry it, at least one; and the counts add up to
    the number of rows. *)
Theorem value_counts_distribution (s : list Z) :
  StronglySorted Z.le (fst <$> value_counts s)
  ∧ NoDup (fst <$> value_counts s)
  ∧ (∀ v n, (v, n) ∈ value_counts s ↔
            v ∈ s ∧ n = Z.of_nat (length (filter (λ x, x = v) s)))
  ∧ (∀ v n, (v, n) ∈ value_counts s → 1 ≤ n)
  ∧ foldr Z.add 0 (snd <$> value_counts s) = Z.of_nat (length s).
Proof.
  assert (fst <$> value_counts s = merge_sort Z.le (remove_dups s)) as Hfst.
  { unfold value_counts. rewrite <- list_fmap_compose. apply list_fmap_id. }
  assert (∀ v n, (v, n) ∈ value_counts s ↔
                 v ∈ s ∧ n = Z.of_nat (length (filter (λ x, x = v) s))) as Hmem.
  { intros v n. unfold value_counts. rewrite list_elem_of_fmap.
    setoid_rewrite merge_sort_Permutation. setoid_rewrite elem_of_remove_dups.
    split; [by intros (v' & [= -> ->] & Hv) | intros [Hv ->]; eauto]. }
  split_and!; [| |done| |].
  - rewrite Hfst. apply (StronglySorted_merge_sort Z.le).
  - rewrite Hfst, merge_sort_Permutation. apply NoDup_remove_dups.
  - intros v n [Hv ->]%Hmem.
    destruct (filter (λ x, x = v) s) as [|y l] eqn:E; [|simpl length; lia].
    assert (v ∈ filter (λ x, x = v) s) as Hin by by apply list_elem_of_filter.
    rewrite E in Hin. by apply elem_of_nil in Hin.
  - unfold value_counts. rewrite <- list_fmap_compose.
    rewrite (sum_counts_filter (merge_sort Z.le (remove_dups s)) s)
      by (rewrite merge_sort_Permutation; apply NoDup_remove_dups).
    rewrite filter_all; [done |].
    intros x Hx. by rewrite merge_sort_Permutation, elem_of_remove_dups.
Qed.

Lemma filter_by_unique_name (o : option string) (bf : list client_row) :
  NoDup (Empresa <$> bf) →
  (λ _ : client_row, tt) <$> filter (λ c, o = Some (Empresa c)) bf
  = if decide (o ∈ (Some ∘ Empresa <$> bf)) then [tt] else [].
Proof.
  induction bf as [|c bf IH]; [done |].
  rewrite !fmap_cons. intros [Hc Hnd]%NoDup_cons. rewrite filter_cons.
  specialize (IH Hnd).
  destruct (decide (o = Some (Empresa c))) as [->|Hne].
  - rewrite (decide_True (P := _ ∈ _ :: _)) by apply list_elem_of_here.
    rewrite fmap_cons, IH. rewrite decide_False; [done |].
    intros (c' & [= Hname] & Hc')%list_elem_of_fmap.
    apply Hc. rewrite Hname. by apply list_elem_of_fmap_2.
  - rewrite IH. destruct (decide (o ∈ (Some ∘ Empresa <$> bf))) as [Hin|Hin].
    + by rewrite decide_True by by apply list_elem_of_further.
    + rewrite decide_False; [done |]. by intros [?|?]%elem_of_cons.
Qed.

(** X18. The table under the charts: with one row per client in the filtered
    client table, it is the cached base restricted to the rows of the
    clients kept, each once and in the order of the base; a row without a
    client is never in it. *)
Theorem merge_inner_restricts_base (df : list derived_row) (bf : list client_row) :
  NoDup (Empresa <$> bf) →
  merge_inner df bf = filter (λ r, cliente r ∈ (Some ∘ Empresa <$> bf)) df
  ∧ merge_inner df bf `sublist_of` df
  ∧ ∀ r, r ∈ merge_inner df bf → is_Some (cliente r).
Proof.
  intros Hnd.
  assert (merge_inner df bf = filter (λ r, cliente r ∈ (Some ∘ Empresa <$> bf)) df) as Heq.
  { unfold merge_inner. induction df as [|r df IH]; [done |].
    rewrite bind_cons, IH, filter_cons. clear IH.
    pose proof (filter_by_unique_name (cliente r) bf Hnd) as Hone.
    destruct (filter (λ c, cliente r = Some (Empresa c)) bf) as [|c [|c' l]];
      case_decide; simplify_eq/=; done. }
  split_and!; [done | rewrite Heq; apply sublist_filter |].
  intros r. rewrite Heq, list_elem_of_filter.
  intros [(c & -> & _)%list_elem_of_fmap _]. simpl. eauto.
Qed.

Lemma merge_inner_witness :
  NoDup (Empresa <$> sample_clients)
  ∧ merge_inner (ensure_metrics sample_rows) sample_clients
    = filter (λ r, cliente r ∈ (Some ∘ Empresa <$> sample_clients))
        (ensure_metrics sample_rows).
Proof.
  assert (NoDup (Empresa <$> sample_clients)) as H.
  { vm_compute. repeat constructor; intros Hin;
      repeat (apply elem_of_cons in Hin as [[=] | Hin]); by apply elem_of_nil in Hin. }
  split; [exact H |].
  exact (proj1 (merge_inner_restricts_base (ensure_metrics sample_rows) sample_clients H)).
Defined.

(** ** Runs of the script *)

Lemma init_session_run_cached (g : gmap string pyobj) (fs : filesystem)
    (s : run_state) (df : list derived_row) :
  df_cached (session s) = Some df →
  init_session g fs s
  = (Done tt,
     {| session := {| df_cached := Some df;
                      client_list := Some (default [] (client_list (session s))) |};
        page := page s |}).
Proof.
  intros Hdf. destruct s as [[d l] p]. simpl in Hdf. subst d.
  unfold init_session. script_unfold. simpl. by destruct l.
Qed.

(** X20. Once a frame is cached, lines 98 to 104 read no file and no global
    name: the frame stays, and the client list is set to the empty list
    only if the session had none. *)
Theorem init_session_keeps_cached_frame (g : gmap string pyobj) (fs : filesystem)
    (s : run_state) (df : list derived_row) :
  df_cached (session s) = Some df →
  init_session g fs s
  = (Done tt,
     {| session := {| df_cached := Some df;
                      client_list := Some (default [] (client_list (session s))) |};
        page := page s |}).
Proof.
  intros Hdf. destruct s as [[d l] p]. simpl in Hdf. subst d.
  unfold init_session. script_unfold. simpl. by destruct l.
Qed.

Lemma init_session_witness :
  df_cached (session sample_state) = Some (ensure_metrics sample_rows)
  ∧ init_session module_globals ∅ sample_state = (Done tt, sample_state).
Proof.
  split; [reflexivity |].
  exact (init_session_keeps_cached_frame module_globals ∅ sample_state _ eq_refl).
Defined.

(** X22. Under the module's own bindings a click on "Usar base padrão" ends the
    run with [NameError], for every file system and session: the header of
    the sidebar is on the page and the session is as it was. *)
Theorem default_button_raises (fs : filesystem) (inp : ui_inputs) (s : run_state) :
  btn_default inp = true →
  sidebar_base module_globals fs inp s
  = (Raised (NameError "DEFAULT_FILE"),
     {| session := session s; page := (page s ++ [st_header "Base de dados"])%list |}).
Proof.
  intros Hclick. unfold sidebar_base, use_default_base. script_unfold.
  by rewrite Hclick, load_default_df_NameError.
Qed.

(** X23. A run on an initialised session in which no button is clicked reads
    no file and no global name: it puts the title, the caption and the
    header of the sidebar on the page and goes on to line 140 with the
    session as it found it. *)
Theorem app_without_clicks (g : gmap string pyobj) (fs : filesystem)
    (inp : ui_inputs) (s : run_state) :
  is_Some (df_cached (session s)) →
  is_Some (client_list (session s)) →
  btn_default inp = false →
  uploaded inp = None ∨ btn_upload inp = false →
  app g fs inp s
  = dashboard inp
      {| session := session s;
         page := (page s ++
                  [st_title "CT - Entregas - Clientes por frentes / produtos — Ciclo 25–26";
                   st_caption "KPIs + indicadores + tabela. Use o filtro de lista para recortes por cliente.";
                   st_header "Base de dados"; st_divider])%list |}.
Proof.
  intros [df Hdf] [cl Hcl] Hdefault Hupload.
  unfold app, sidebar_base.
  unfold mbind at 1 2 3 4. unfold script_bind.
  rewrite (init_session_run_cached g fs s df Hdf), Hcl. simpl.
  unfold emit. simpl. rewrite Hdefault.
  unfold mbind at 1 2 3. unfold script_bind, emit, mret, script_ret. simpl.
  assert ({| df_cached := Some df; client_list := Some cl |} = session s) as ->
    by (destruct s as [[? ?] ?]; simpl in *; by subst).
  destruct Hupload as [-> | Hup].
  - simpl. by rewrite <- !(assoc_L (++)).
  - destruct (uploaded inp); rewrite ?Hup; simpl; by rewrite <- !(assoc_L (++)).
Qed.

(** X24. The sliders refuse a table they cannot span: when every client has
    the same value of the selected metric, or the table has exactly ten
    clients, the run ends with a [StreamlitAPIException] right under the
    header of the filters, the session as it was. *)
Theorem sliders_refuse_degenerate_bounds (inp : ui_inputs) (s : run_state)
    (df : list derived_row) (clients : list client_row) (lo hi : Z) :
  df_cached (session s) = Some df →
  client_table df = Ok clients →
  series_min_int (metric (mode inp) <$> clients) = Ok lo →
  series_max_int (metric (mode inp) <$> clients) = Ok hi →
  lo = hi ∨ length clients = 10%nat →
  dashboard inp s
  = (Raised StreamlitAPIException,
     {| session := session s;
        page := (page s ++ [st_subheader "Filtros (faixa)"])%list |}).
Proof.
  intros Hdf Hclients Hlo Hhi Hcase.
  destruct clients as [|c cs]; [done |].
  unfold dashboard. script_unfold. rewrite Hdf, Hclients.
  destruct (mode inp);
    cbn -[Nat.min merge_sort st_slider st_range_slider filter length render apply_filters]
      in Hlo, Hhi |- *;
    change (metric Frentes) with N_frentes in Hlo, Hhi;
    change (metric Produtos) with N_produtos in Hlo, Hhi;
    injection Hlo as Hlo; injection Hhi as Hhi; rewrite Hlo, Hhi;
    unfold st_range_slider;
    (destruct Hcase as [-> | Hlen];
      [ by rewrite decide_False by lia
      | case_decide; [|done]; rewrite Hlen;
        cbn -[render apply_filters merge_sort filter]; done ]).
Qed.

Lemma default_button_witness :
  btn_default reset_click = true
  ∧ sidebar_base module_globals sample_fs reset_click sample_state
    = (Raised (NameError "DEFAULT_FILE"),
       {| session := session sample_state;
          page := (page sample_state ++ [st_header "Base de dados"])%list |}).
Proof.
  split; [reflexivity |].
  exact (default_button_raises sample_fs reset_click sample_state eq_refl).
Defined.

Lemma app_without_clicks_witness :
  is_Some (df_cached (session eleven_state))
  ∧ is_Some (client_list (session eleven_state))
  ∧ btn_default narrowed = false
  ∧ (uploaded narrowed = None ∨ btn_upload narrowed = false)
  ∧ app module_globals ∅ narrowed eleven_state
    = dashboard narrowed
        {| session := session eleven_state;
           page := [st_title "CT - Entregas - Clientes por frentes / produtos — Ciclo 25–26";
                    st_caption "KPIs + indicadores + tabela. Use o filtro de lista para recortes por cliente.";
                    st_header "Base de dados"; st_divider] |}.
Proof.
  assert (is_Some (df_cached (session eleven_state))) as H1 by (simpl; eauto).
  assert (is_Some (client_list (session eleven_state))) as H2 by (simpl; eauto).
  assert (uploaded narrowed = None ∨ btn_upload narrowed = false) as H4 by (left; reflexivity).
  split_and!; [exact H1 | exact H2 | reflexivity | exact H4 |].
  exact (app_without_clicks module_globals ∅ narrowed eleven_state H1 H2 eq_refl H4).
Defined.

Lemma sliders_refuse_witness :
  df_cached (session ten_state) = Some (ensure_metrics (take 10 eleven_rows))
  ∧ client_table (ensure_metrics (take 10 eleven_rows)) = Ok (take 10 eleven_clients)
  ∧ series_min_int (metric (mode untouched) <$> take 10 eleven_clients) = Ok 1
  ∧ series_max_int (metric (mode untouched) <$> take 10 eleven_clients) = Ok 1
  ∧ length (take 10 eleven_clients) = 10%nat
  ∧ dashboard untouched ten_state
    = (Raised StreamlitAPIException,
       {| session := session ten_state;
          page := (page ten_state ++ [st_subheader "Filtros (faixa)"])%list |}).
Proof.
  assert (client_table (ensure_metrics (take 10 eleven_rows)) = Ok (take 10 eleven_clients))
    as H2 by (vm_compute; reflexivity).
  assert (series_min_int (metric (mode untouched) <$> take 10 eleven_clients) = Ok 1) as H3
    by (vm_compute; reflexivity).
  assert (series_max_int (metric (mode untouched) <$> take 10 eleven_clients) = Ok 1) as H4
    by (vm_compute; reflexivity).
  assert (length (take 10 eleven_clients) = 10%nat) as H5 by (vm_compute; reflexivity).
  split_and!; [reflexivity | exact H2 | exact H3 | exact H4 | exact H5 |].
  exact (sliders_refuse_degenerate_bounds untouched ten_state _ _ 1 1
           eq_refl H2 H3 H4 (or_intror H5)).
Defined.
